(** * app/backend/app.py: the chat gateway, the token gate and the NDJSON relay

    A shallow embedding of the Quart blueprint of [app.py]:
    the view functions, the [before_request] hook [ensure_openai_token],
    the start-up hook [setup_clients] and the generator [format_as_ndjson].

    Python values that travel through the handler are JSON-shaped objects,
    the process state ([openai.api_type], [openai.api_key],
    [current_app.config]) is threaded explicitly, exceptions are results,
    and the classes imported from other modules ([AuthenticationHelper],
    [DefaultAzureCredential], [ChatReadRetrieveReadApproach]) are records of
    their constructor arguments whose methods are an interface. *)

From Stdlib Require Import Ascii String ZArith QArith SpecFloat.
From stdpp Require Import base strings list gmap pretty.

Local Open Scope string_scope.
Local Open Scope Z_scope.

(** ** Python objects *)

(** The objects [request.get_json()] returns and the approach yields:
    [None], [bool], [int], [str], [list] and [dict] with [str] keys.  A dict
    keeps insertion order, which [json.dumps] follows, hence an association
    list.  (Floats are left out of the model.) *)
#[warnings="-register-all"]
Inductive json : Type :=
  | JNull
  | JBool (b : bool)
  | JInt (n : Z)
  | JStr (s : string)
  | JList (l : list json)
  | JDict (d : list (string * json)).

Module Dict.
(** [k in d], [d.get(k)], [d[k] = v] on an insertion-ordered dict. *)
Fixpoint lookup {A} (k : string) (d : list (string * A)) : option A :=
  match d with
  | [] => None
  | (k', v) :: d' => if String.eqb k k' then Some v else lookup k d'
  end.

Fixpoint set {A} (k : string) (v : A) (d : list (string * A)) : list (string * A) :=
  match d with
  | [] => [(k, v)]
  | (k', v') :: d' =>
      if String.eqb k k' then (k', v) :: d' else (k', v') :: set k v d'
  end.
End Dict.

(** [type(v).__name__] *)
Definition type_name (v : json) : string :=
  match v with
  | JNull => "NoneType"
  | JBool _ => "bool"
  | JInt _ => "int"
  | JStr _ => "str"
  | JList _ => "list"
  | JDict _ => "dict"
  end.

(** ** [json.dumps(v, ensure_ascii=False)] *)

Definition dquote : ascii := ascii_of_nat 34.
Definition backslash : ascii := ascii_of_nat 92.
Definition LF : string := String (ascii_of_nat 10) EmptyString.

Definition hex_digit (n : nat) : ascii :=
  ascii_of_nat (if (n <? 10)%nat then 48 + n else 87 + n)%nat.

(** [ESCAPE_DCT] of [json.encoder]: the two-character escapes, and
    [\u00xx] for the other characters below 0x20. *)
Definition escape_char (c : ascii) : string :=
  let n := nat_of_ascii c in
  let esc (x : string) := String backslash x in
  if (n =? 34)%nat then esc (String dquote EmptyString)
  else if (n =? 92)%nat then esc (String backslash EmptyString)
  else if (n =? 8)%nat then esc "b"
  else if (n =? 12)%nat then esc "f"
  else if (n =? 10)%nat then esc "n"
  else if (n =? 13)%nat then esc "r"
  else if (n =? 9)%nat then esc "t"
  else if (n <? 32)%nat then
    esc ("u00" +:+ String (hex_digit (n / 16)) (String (hex_digit (n mod 16)) EmptyString))
  else String c EmptyString.

Fixpoint escape_string (s : string) : string :=
  match s with
  | EmptyString => EmptyString
  | String c s' => escape_char c +:+ escape_string s'
  end.

(** [py_encode_basestring] *)
Definition encode_basestring (s : string) : string :=
  String dquote (escape_string s +:+ String dquote EmptyString).

(** [sep.join(l)] *)
Fixpoint join (sep : string) (l : list string) : string :=
  match l with
  | [] => EmptyString
  | [x] => x
  | x :: l' => x +:+ sep +:+ join sep l'
  end.

(** The default separators are [", "] and [": "]. *)
Fixpoint json_dumps (v : json) : string :=
  match v with
  | JNull => "null"
  | JBool true => "true"
  | JBool false => "false"
  | JInt n => pretty n
  | JStr s => encode_basestring s
  | JList l => "[" +:+ join ", " (map json_dumps l) +:+ "]"
  | JDict d =>
      "{" +:+ join ", "
        (map (fun kv => encode_basestring (fst kv) +:+ ": " +:+ json_dumps (snd kv)) d)
      +:+ "}"
  end.

(** ** Exceptions *)

(** An exception object: its class, [str(e)], and whether the class derives
    from [Exception] (what [except Exception] tests; [CancelledError],
    [KeyboardInterrupt] and [SystemExit] do not). *)
Record Exn : Type := mkExn {
  exn_class : string;
  exn_str : string;
  exn_is_Exception : bool
}.

(** [repr] of a key without quotes or escapes, as in [KeyError('messages')]. *)
Definition KeyError (k : string) : Exn :=
  mkExn "KeyError" ("'" +:+ k +:+ "'") true.
Definition AttributeError (msg : string) : Exn := mkExn "AttributeError" msg true.
Definition TypeError (msg : string) : Exn := mkExn "TypeError" msg true.
(** [werkzeug.exceptions.BadRequest()], raised by a failed [get_json]. *)
Definition BadRequest : Exn :=
  mkExn "BadRequest"
    "400 Bad Request: The browser (or proxy) sent a request that this server could not understand."
    true.

Inductive Outcome (A : Type) : Type :=
  | Returns (a : A)
  | Raises (e : Exn).
Arguments Returns {A} a.
Arguments Raises {A} e.

(** ** Asynchronous generators *)

(** One [__anext__()]: the next value and the resumed generator, the end
    ([StopAsyncIteration]), or an exception raised by the generator body. *)
Inductive Step (A S : Type) : Type :=
  | Yield (a : A) (s : S)
  | Stop
  | Throw (e : Exn).
Arguments Yield {A S} a s.
Arguments Stop {A S}.
Arguments Throw {A S} e.

Record AsyncGenerator (A : Type) : Type := mkGen {
  gen_state : Type;
  gen_start : gen_state;
  gen_anext : gen_state -> Step A gen_state
}.
Arguments mkGen {A gen_state} gen_start gen_anext.
Arguments gen_state {A} _.
Arguments gen_start {A} _.
Arguments gen_anext {A} _ _.

(** How a consumer's [async for] over a generator ends. *)
Inductive Ending : Type :=
  | Exhausted
  | Failed (e : Exn)
  | Pending.

(** [async for x in g] run for at most [fuel] calls of [__anext__]: the
    values received, in order, and how the loop ended ([Pending]: the
    generator had more to give). *)
Fixpoint drain_from {A} (g : AsyncGenerator A) (fuel : nat) (s : gen_state g)
  : list A * Ending :=
  match fuel with
  | O => ([], Pending)
  | S fuel' =>
      match gen_anext g s with
      | Yield a s' => let (xs, e) := drain_from g fuel' s' in (a :: xs, e)
      | Stop => ([], Exhausted)
      | Throw e => ([], Failed e)
      end
  end.

Definition drain {A} (g : AsyncGenerator A) (fuel : nat) : list A * Ending :=
  drain_from g fuel (gen_start g).

(** The generator over a given list, ending as given (for stubs). *)
Definition gen_of_list {A} (l : list A) (last : option Exn) : AsyncGenerator A :=
  mkGen l (fun s => match s with
                    | x :: s' => Yield x s'
                    | [] => match last with Some e => Throw e | None => Stop end
                    end).

(** <<
    async def format_as_ndjson(r):
        async for event in r:
            yield json.dumps(event, ensure_ascii=False) + "\n"
    >> *)
Definition format_as_ndjson (r : AsyncGenerator json) : AsyncGenerator string :=
  mkGen (gen_start r)
    (fun s => match gen_anext r s with
              | Yield event s' => Yield (json_dumps event +:+ LF) s'
              | Stop => Stop
              | Throw e => Throw e
              end).


(** ** Floats *)

(** A Python [float] is an IEEE 754 double: [spec_float] with 53 bits of
    precision and infinities at exponent 1024; [+] rounds to nearest, ties
    to even. *)
Definition float_prec : Z := 53.
Definition float_emax : Z := 1024.

(** [x + y] on floats *)
Definition float_add (x y : spec_float) : spec_float := SFadd float_prec float_emax x y.

(** [float(z)], as [+] converts an [int] operand (for [z] within the range
    of a double). *)
Definition float_of_int (z : Z) : spec_float :=
  binary_normalize float_prec float_emax z 0 false.

(** [z < f] for an [int] and a [float]: Python compares the two values
    exactly, without converting the [int]. *)
Definition int_lt_float (z : Z) (f : spec_float) : bool :=
  match f with
  | S754_nan => false
  | S754_infinity s => negb s
  | S754_zero _ => z <? 0
  | S754_finite s m e =>
      match e with
      | Zneg p => z * 2 ^ Zpos p <? cond_Zopp s (Zpos m)
      | _ => z <? cond_Zopp s (Zpos m) * 2 ^ e
      end
  end.

(** The number a finite float stands for. *)
Definition float_value (f : spec_float) : Q :=
  match f with
  | S754_finite s m e =>
      match e with
      | Zneg p => Qmake (cond_Zopp s (Zpos m)) (2 ^ p)
      | _ => inject_Z (cond_Zopp s (Zpos m) * 2 ^ e)
      end
  | _ => 0%Q
  end.

(** ** The imported classes *)

(** [azure.core.credentials.AccessToken] *)
Record AccessToken : Type := mkAccessToken {
  token : string;
  expires_on : Z
}.

(** The three classes instantiated by [setup_clients]: an object is the
    record of the arguments its constructor received. *)
Record DefaultAzureCredential : Type := mkDefaultAzureCredential {
  exclude_shared_token_cache_credential : bool
}.

Record AuthenticationHelper : Type := mkAuthenticationHelper {
  use_authentication : bool;
  server_app_id : option string;
  server_app_secret : option string;
  client_app_id : option string;
  tenant_id : option string;
  token_cache_path : option string
}.

Record ChatReadRetrieveReadApproach : Type := mkChatReadRetrieveReadApproach {
  openai_host : string;
  azure_openai_endpoint : option string;
  azure_openai_api_key : option string;
  azure_openai_chatgpt_deployment : option string;
  openai_chatgpt_model : option string;
  sql_connection_string : option string
}.

Abbreviation Headers := (list (string * string)).

(** What [approach.run] hands back: a dict, or an async generator of events
    (the two branches of [isinstance(result, dict)]). *)
Inductive RunResult : Type :=
  | RDict (d : list (string * json))
  | RAsyncGen (g : AsyncGenerator json).

(** The methods of the imported classes that [app.py] calls.  Their code is
    in other modules; every statement below holds for all of them. *)
Class Collaborators : Type := {
  get_auth_claims_if_enabled : AuthenticationHelper -> Headers -> Outcome json;
  get_auth_setup_for_client : AuthenticationHelper -> Outcome json;
  get_token : DefaultAzureCredential -> string -> Outcome AccessToken;
  run : ChatReadRetrieveReadApproach -> json -> json -> json -> json -> Outcome RunResult
}.

(** ** Process state *)

Definition CONFIG_OPENAI_TOKEN : string := "openai_token".
Definition CONFIG_CREDENTIAL : string := "azure_credential".
Definition CONFIG_ASK_APPROACH : string := "ask_approach".
Definition CONFIG_CHAT_APPROACH : string := "chat_approach".
Definition CONFIG_BLOB_CONTAINER_CLIENT : string := "blob_container_client".
Definition CONFIG_AUTH_CLIENT : string := "auth_client".

(** The objects [app.py] stores in [current_app.config]. *)
Inductive ConfigValue : Type :=
  | CfgToken (t : AccessToken)
  | CfgCredential (c : DefaultAzureCredential)
  | CfgAuthClient (h : AuthenticationHelper)
  | CfgApproach (a : ChatReadRetrieveReadApproach).

Definition config_type_name (v : ConfigValue) : string :=
  match v with
  | CfgToken _ => "AccessToken"
  | CfgCredential _ => "DefaultAzureCredential"
  | CfgAuthClient _ => "AuthenticationHelper"
  | CfgApproach _ => "ChatReadRetrieveReadApproach"
  end.

(** The calls that leave [app.py], in the order they are made. *)
Inductive Event : Type :=
  | EvGetAuthClaims (h : AuthenticationHelper) (hs : Headers)
  | EvGetAuthSetup (h : AuthenticationHelper)
  | EvGetToken (c : DefaultAzureCredential) (scope : string)
  | EvRun (a : ChatReadRetrieveReadApproach) (messages stream context session_state : json)
  | EvLogException (msg : string) (e : Exn).

Record World : Type := mkWorld {
  basepath : string;                       (* module global of app.py *)
  openai_api_type : string;                (* openai.api_type *)
  openai_api_key : option string;          (* openai.api_key *)
  config : gmap string ConfigValue;        (* current_app.config *)
  now : spec_float;                        (* what time.time() returns *)
  trace : list Event
}.

Definition emit (ev : Event) (w : World) : World :=
  mkWorld (basepath w) (openai_api_type w) (openai_api_key w) (config w) (now w)
    (trace w ++ [ev]).
Definition set_config (k : string) (v : ConfigValue) (w : World) : World :=
  mkWorld (basepath w) (openai_api_type w) (openai_api_key w) (<[k := v]> (config w))
    (now w) (trace w).
Definition set_api_key (key : string) (w : World) : World :=
  mkWorld (basepath w) (openai_api_type w) (Some key) (config w) (now w) (trace w).

(** ** Computations: state and exceptions *)

Definition M (A : Type) : Type := World -> Outcome A * World.

Definition ret {A} (a : A) : M A := fun w => (Returns a, w).
Definition raise {A} (e : Exn) : M A := fun w => (Raises e, w).
Definition bind {A B} (m : M A) (k : A -> M B) : M B :=
  fun w => match m w with
           | (Returns a, w') => k a w'
           | (Raises e, w') => (Raises e, w')
           end.

Notation "'let*' x ':=' m 'in' k" := (bind m (fun x => k))
  (at level 10, x pattern, m at level 100, k at level 200).

(** [try: body  except Exception as e: handler(e)] *)
Definition try_except {A} (body : M A) (handler : Exn -> M A) : M A :=
  fun w => match body w with
           | (Raises e, w') =>
               if exn_is_Exception e then handler e w' else (Raises e, w')
           | r => r
           end.

Definition lift {A} (o : Outcome A) : M A := fun w => (o, w).
Definition get_world : M World := fun w => (Returns w, w).
Definition modify (f : World -> World) : M unit := fun w => (Returns tt, f w).

(** [current_app.config[k]] *)
Definition config_getitem (k : string) : M ConfigValue :=
  let* w := get_world in
  match config w !! k with
  | Some v => ret v
  | None => raise (KeyError k)
  end.

Definition no_attribute (ty attr : string) : Exn :=
  AttributeError ("'" +:+ ty +:+ "' object has no attribute '" +:+ attr +:+ "'").

(** [time.time()] *)
Definition time_time : M spec_float := let* w := get_world in ret (now w).

(** [logging.exception(msg)] inside an [except] block handling [e] *)
Definition logging_exception (msg : string) (e : Exn) : M unit :=
  modify (emit (EvLogException msg e)).

(** ** Operations on request objects *)

(** [v.get(k, dflt)] *)
Definition py_get (v : json) (k : string) (dflt : json) : M json :=
  match v with
  | JDict d => ret (default dflt (Dict.lookup k d))
  | _ => raise (no_attribute (type_name v) "get")
  end.

(** [v[k]] for a [str] key [k] *)
Definition py_getitem (v : json) (k : string) : M json :=
  match v with
  | JDict d => match Dict.lookup k d with
               | Some x => ret x
               | None => raise (KeyError k)
               end
  | JList _ => raise (TypeError "list indices must be integers or slices, not str")
  | JStr _ => raise (TypeError "string indices must be integers")
  | _ => raise (TypeError ("'" +:+ type_name v +:+ "' object is not subscriptable"))
  end.

(** [v[k] = x] for a [str] key [k]; the dict is returned updated. *)
Definition py_setitem (v : json) (k : string) (x : json) : M json :=
  match v with
  | JDict d => ret (JDict (Dict.set k x d))
  | JList _ => raise (TypeError "list indices must be integers or slices, not str")
  | _ => raise (TypeError ("'" +:+ type_name v +:+ "' object does not support item assignment"))
  end.

(** ** Requests and responses *)

(** The request object as the views use it: [request.is_json] (the declared
    mimetype is a JSON one), the value [request.get_json()] parses out of
    the body ([None] when the body does not parse), [request.headers]. *)
Record Request : Type := mkRequest {
  is_json : bool;
  parsed_body : option json;
  headers : Headers
}.

(** [await request.get_json()], called only when [is_json] holds. *)
Definition get_json (request : Request) : M json :=
  match parsed_body request with
  | Some v => ret v
  | None => raise BadRequest
  end.

Inductive Body : Type :=
  | BodyJson (v : json)                       (* jsonify(v) *)
  | BodyText (s : string)
  | BodyFile (directory name : string)        (* a file sent from disk *)
  | BodyStream (g : AsyncGenerator string).   (* an iterable body *)

Inductive Timeout : Type :=
  | TimeoutDefault
  | TimeoutNone.

Record Response : Type := mkResponse {
  body : Body;
  status : Z;
  timeout : Timeout
}.

Definition jsonify (v : json) : Response := mkResponse (BodyJson v) 200 TimeoutDefault.
Definition make_response (g : AsyncGenerator string) : Response :=
  mkResponse (BodyStream g) 200 TimeoutDefault.
(** The view's return value [(response, code)] *)
Definition with_status (r : Response) (code : Z) : Response :=
  mkResponse (body r) code (timeout r).
(** [response.timeout = None] *)
Definition set_timeout_none (r : Response) : Response :=
  mkResponse (body r) (status r) TimeoutNone.

(** What the transport writes for a response: the received chunks
    concatenated, and how the stream ended. *)
Definition stream_body (g : AsyncGenerator string) (fuel : nat) : string * Ending :=
  let (chunks, e) := drain g fuel in (String.concat EmptyString chunks, e).

Definition error_envelope (msg : string) : json := JDict [("error", JStr msg)].

Section App.
Context `{Collaborators}.

(** *** Calls to the imported classes *)

Definition as_auth_client (attr : string) (v : ConfigValue) : M AuthenticationHelper :=
  match v with
  | CfgAuthClient h => ret h
  | _ => raise (no_attribute (config_type_name v) attr)
  end.
Definition as_approach (attr : string) (v : ConfigValue) : M ChatReadRetrieveReadApproach :=
  match v with
  | CfgApproach a => ret a
  | _ => raise (no_attribute (config_type_name v) attr)
  end.
Definition as_credential (attr : string) (v : ConfigValue) : M DefaultAzureCredential :=
  match v with
  | CfgCredential c => ret c
  | _ => raise (no_attribute (config_type_name v) attr)
  end.
Definition as_token (attr : string) (v : ConfigValue) : M AccessToken :=
  match v with
  | CfgToken t => ret t
  | _ => raise (no_attribute (config_type_name v) attr)
  end.

(** [await obj.get_auth_claims_if_enabled(hs)] *)
Definition call_get_auth_claims_if_enabled (obj : ConfigValue) (hs : Headers) : M json :=
  let* h := as_auth_client "get_auth_claims_if_enabled" obj in
  let* _ := modify (emit (EvGetAuthClaims h hs)) in
  lift (get_auth_claims_if_enabled h hs).

(** [obj.get_auth_setup_for_client()] *)
Definition call_get_auth_setup_for_client (obj : ConfigValue) : M json :=
  let* h := as_auth_client "get_auth_setup_for_client" obj in
  let* _ := modify (emit (EvGetAuthSetup h)) in
  lift (get_auth_setup_for_client h).

(** [await obj.get_token(scope)] *)
Definition call_get_token (obj : ConfigValue) (scope : string) : M AccessToken :=
  let* c := as_credential "get_token" obj in
  let* _ := modify (emit (EvGetToken c scope)) in
  lift (get_token c scope).

(** [await obj.run(messages, stream=.., context=.., session_state=..)] *)
Definition call_run (obj : ConfigValue) (messages stream context session_state : json)
  : M RunResult :=
  let* a := as_approach "run" obj in
  let* _ := modify (emit (EvRun a messages stream context session_state)) in
  lift (run a messages stream context session_state).

(** *** The views *)

Definition send_static_file (name : string) : M Response :=
  ret (mkResponse (BodyFile "static" name) 200 TimeoutDefault).
Definition send_from_directory (directory name : string) : M Response :=
  ret (mkResponse (BodyFile directory name) 200 TimeoutDefault).

Definition index : M Response := send_static_file "index.html".

Definition get_basepath : M Response :=
  let* w := get_world in
  ret (jsonify (JDict [("basepath", JStr (basepath w))])).

Definition redirect : M Response :=
  ret (mkResponse (BodyText EmptyString) 200 TimeoutDefault).

Definition favicon : M Response := send_static_file "favicon.ico".

Definition assets (path : string) : M Response :=
  send_from_directory "static/assets" path.

(** The body of the [try] statement of [chat]. *)
Definition chat_try (request_json context : json) : M Response :=
  let* approach := config_getitem CONFIG_CHAT_APPROACH in
  let* messages := py_getitem request_json "messages" in
  let* stream := py_get request_json "stream" (JBool false) in
  let* session_state := py_get request_json "session_state" JNull in
  let* result := call_run approach messages stream context session_state in
  match result with
  | RDict d => ret (jsonify (JDict d))
  | RAsyncGen g => ret (set_timeout_none (make_response (format_as_ndjson g)))
  end.

(** The [except Exception as e] clause of [chat]. *)
Definition chat_except (e : Exn) : M Response :=
  let* _ := logging_exception "Exception in /chat" e in
  ret (with_status (jsonify (error_envelope (exn_str e))) 500).

Definition chat (request : Request) : M Response :=
  if negb (is_json request) then
    ret (with_status (jsonify (error_envelope "request must be json")) 415)
  else
    let* request_json := get_json request in
    let* context := py_get request_json "context" (JDict []) in
    let* auth_helper := config_getitem CONFIG_AUTH_CLIENT in
    let* claims := call_get_auth_claims_if_enabled auth_helper (headers request) in
    let* context := py_setitem context "auth_claims" claims in
    try_except (chat_try request_json context) chat_except.

Definition auth_setup : M Response :=
  let* auth_helper := config_getitem CONFIG_AUTH_CLIENT in
  let* setup := call_get_auth_setup_for_client auth_helper in
  ret (jsonify setup).

(** *** The [before_request] hook *)

Definition ensure_openai_token : M (option Response) :=
  let* w := get_world in
  if negb (String.eqb (openai_api_type w) "azure_ad") then ret None
  else
    let* openai_token := config_getitem CONFIG_OPENAI_TOKEN in
    let* openai_token := as_token "expires_on" openai_token in
    let* t := time_time in
    if int_lt_float (expires_on openai_token) (float_add t (float_of_int 60)) then
      let* credential := config_getitem CONFIG_CREDENTIAL in
      let* openai_token :=
        call_get_token credential "https://cognitiveservices.azure.com/.default" in
      let* _ := modify (set_config CONFIG_OPENAI_TOKEN (CfgToken openai_token)) in
      let* _ := modify (set_api_key (token openai_token)) in
      ret None
    else ret None.

(** *** The blueprint *)

(** The view functions registered on [bp] by [@bp.route], with the path
    argument of [assets]. *)
Inductive Endpoint : Type :=
  | EpIndex
  | EpGetBasepath
  | EpRedirect
  | EpFavicon
  | EpAssets (path : string)
  | EpChat
  | EpAuthSetup.

Inductive Method : Type := GET | POST.

(** The rule and the methods each [@bp.route] declares. *)
Definition rule (ep : Endpoint) : string * list Method :=
  match ep with
  | EpIndex => ("/", [GET])
  | EpGetBasepath => ("/basepath", [GET])
  | EpRedirect => ("/redirect", [GET])
  | EpFavicon => ("/favicon.ico", [GET])
  | EpAssets _ => ("/assets/<path:path>", [GET])
  | EpChat => ("/chat", [POST])
  | EpAuthSetup => ("/auth_setup", [GET])
  end.

Definition view (ep : Endpoint) (request : Request) : M Response :=
  match ep with
  | EpIndex => index
  | EpGetBasepath => get_basepath
  | EpRedirect => redirect
  | EpFavicon => favicon
  | EpAssets path => assets path
  | EpChat => chat request
  | EpAuthSetup => auth_setup
  end.

(** The functions registered by [@bp.before_request]. *)
Definition before_request_funcs : list (M (option Response)) :=
  [ensure_openai_token].

(** The hooks run in order before the view of every request to the
    blueprint; the first value other than [None] is the response. *)
Fixpoint preprocess_request (funcs : list (M (option Response))) : M (option Response) :=
  match funcs with
  | [] => ret None
  | f :: funcs' =>
      let* rv := f in
      match rv with
      | Some r => ret (Some r)
      | None => preprocess_request funcs'
      end
  end.

Definition full_dispatch_request (ep : Endpoint) (request : Request) : M Response :=
  let* rv := preprocess_request before_request_funcs in
  match rv with
  | Some r => ret r
  | None => view ep request
  end.
End App.

(** ** Start-up *)

Definition os_getenv (environ : gmap string string) (k : string) : option string :=
  environ !! k.
Definition os_getenv_default (environ : gmap string string) (k dflt : string) : string :=
  default dflt (environ !! k).

(** [str.lower()].  The letters A to Z are mapped; the bytes of characters
    outside ASCII are kept, and no such character lowers to a letter of
    the word the result is compared with below. *)
Definition ascii_lower (c : ascii) : ascii :=
  let n := nat_of_ascii c in
  if ((65 <=? n) && (n <=? 90))%nat then ascii_of_nat (n + 32) else c.

Fixpoint str_lower (s : string) : string :=
  match s with
  | EmptyString => EmptyString
  | String c s' => String (ascii_lower c) (str_lower s')
  end.

Definition setup_clients (environ : gmap string string) : M unit :=
  (* Shared by all OpenAI deployments *)
  let OPENAI_HOST := os_getenv_default environ "OPENAI_HOST" "azure" in
  let OPENAI_CHATGPT_MODEL := os_getenv environ "AZURE_OPENAI_CHATGPT_MODEL" in
  let OPENAI_EMB_MODEL :=
    os_getenv_default environ "AZURE_OPENAI_EMB_MODEL_NAME" "text-embedding-ada-002" in
  (* Used with Azure OpenAI deployments *)
  let AZURE_OPENAI_ENDPOINT := os_getenv environ "AZURE_OPENAI_ENDPOINT" in
  let AZURE_OPENAI_CHATGPT_DEPLOYMENT := os_getenv environ "AZURE_OPENAI_CHATGPT_DEPLOYMENT" in
  let AZURE_OPENAI_EMB_DEPLOYMENT := os_getenv environ "AZURE_OPENAI_EMB_DEPLOYMENT" in
  let AZURE_OPENAI_API_KEY := os_getenv environ "AZURE_OPENAI_API_KEY" in
  let SQL_CONNECTION_STRING := os_getenv environ "DATABASE_CONNECTION_STRING" in
  (* Used only with non-Azure OpenAI deployments *)
  let OPENAI_API_KEY := os_getenv environ "OPENAI_API_KEY" in
  let OPENAI_ORGANIZATION := os_getenv environ "OPENAI_ORGANIZATION" in
  let AZURE_USE_AUTHENTICATION :=
    String.eqb (str_lower (os_getenv_default environ "AZURE_USE_AUTHENTICATION" EmptyString))
      "false" in
  let AZURE_SERVER_APP_ID := os_getenv environ "AZURE_SERVER_APP_ID" in
  let AZURE_SERVER_APP_SECRET := os_getenv environ "AZURE_SERVER_APP_SECRET" in
  let AZURE_CLIENT_APP_ID := os_getenv environ "AZURE_CLIENT_APP_ID" in
  let AZURE_TENANT_ID := os_getenv environ "AZURE_TENANT_ID" in
  let TOKEN_CACHE_PATH := os_getenv environ "TOKEN_CACHE_PATH" in
  let azure_credential := mkDefaultAzureCredential true in
  (* Set up authentication helper *)
  let auth_helper :=
    mkAuthenticationHelper AZURE_USE_AUTHENTICATION AZURE_SERVER_APP_ID
      AZURE_SERVER_APP_SECRET AZURE_CLIENT_APP_ID AZURE_TENANT_ID TOKEN_CACHE_PATH in
  let* _ := modify (set_config CONFIG_CREDENTIAL (CfgCredential azure_credential)) in
  let* _ := modify (set_config CONFIG_AUTH_CLIENT (CfgAuthClient auth_helper)) in
  modify (set_config CONFIG_CHAT_APPROACH
            (CfgApproach
               (mkChatReadRetrieveReadApproach OPENAI_HOST AZURE_OPENAI_ENDPOINT
                  AZURE_OPENAI_API_KEY AZURE_OPENAI_CHATGPT_DEPLOYMENT
                  OPENAI_CHATGPT_MODEL SQL_CONNECTION_STRING))).

(** The process when the module has been imported and nothing served:
    [basepath] is read from the environment, [current_app.config] holds
    none of the keys of [app.py]. *)
Definition initial_world (environ : gmap string string) (api_type : string)
    (api_key : option string) (t : spec_float) : World :=
  mkWorld (os_getenv_default environ "DATA_CHAT_BASE_PATH" "/") api_type api_key ∅ t [].

(** The auth helper that [setup_clients] leaves in [current_app.config]. *)
Definition configured_auth_helper (environ : gmap string string) (w : World)
  : option AuthenticationHelper :=
  match config (snd (setup_clients environ w)) !! CONFIG_AUTH_CLIENT with
  | Some (CfgAuthClient h) => Some h
  | _ => None
  end.

(** ** Stub collaborators and sample requests *)

Module Stub.
Definition collaborators (auth : Outcome json) (tok : Outcome AccessToken)
    (res : Outcome RunResult) : Collaborators :=
  {| get_auth_claims_if_enabled _ _ := auth;
     get_auth_setup_for_client _ := Returns (JDict []);
     get_token _ _ := tok;
     run _ _ _ _ _ := res |}.

Definition no_claims : Outcome json := Returns (JDict []).
Definition answer : list (string * json) := [("answer", JStr "hello")].
(** [asyncio.TimeoutError()]: an [Exception] whose [str] is empty. *)
Definition timeout_error : Exn := mkExn "TimeoutError" EmptyString true.
Definition auth_error : Exn := mkExn "AuthError" "Authorization header is expected" true.
Definition fresh_token : AccessToken := mkAccessToken "tok-new" 1700003600.
Definition stale_token : AccessToken := mkAccessToken "tok-old" 1700000030.
Definition lasting_token : AccessToken := mkAccessToken "tok-old" 1700000060.

(** The process after [setup_clients], at a given time and at time
    1700000000. *)
Definition served_at (api_type : string) (t : spec_float) : World :=
  snd (setup_clients ∅ (initial_world ∅ api_type None t)).
Definition served (api_type : string) : World :=
  served_at api_type (float_of_int 1700000000).
Definition served_with (api_type : string) (t : AccessToken) : World :=
  set_config CONFIG_OPENAI_TOKEN (CfgToken t) (served api_type).

Definition hi : json :=
  JList [JDict [("role", JStr "user"); ("content", JStr "hi")]].
Definition post_json (v : json) : Request := mkRequest true (Some v) [].
Definition post_text : Request :=
  mkRequest false None [("Content-Type", "text/plain")].
Definition chat_request (stream : bool) : Request :=
  post_json (JDict [("messages", hi); ("stream", JBool stream)]).
Definition deltas : list json :=
  [JDict [("delta", JStr "he")]; JDict [("delta", JStr "llo")]].

(** The objects [setup_clients] builds from an empty environment. *)
Definition credential : DefaultAzureCredential := mkDefaultAzureCredential true.
Definition auth_helper : AuthenticationHelper :=
  mkAuthenticationHelper false None None None None None.
Definition approach : ChatReadRetrieveReadApproach :=
  mkChatReadRetrieveReadApproach "azure" None None None None None.

(** An approach answering with a dict, one yielding two events, one whose
    [run] raises, and an auth helper that raises. *)
Definition answering : Collaborators :=
  collaborators no_claims (Returns fresh_token) (Returns (RDict answer)).
Definition streaming : Collaborators :=
  collaborators no_claims (Returns fresh_token)
    (Returns (RAsyncGen (gen_of_list deltas None))).
Definition failing : Collaborators :=
  collaborators no_claims (Returns fresh_token) (Raises timeout_error).
Definition unauthorized : Collaborators :=
  collaborators (Raises auth_error) (Returns fresh_token) (Returns (RDict answer)).

(** A cancelled [run], a credential handing out a token with 50 seconds
    left, and a credential that cannot be reached. *)
Definition cancelled : Exn := mkExn "CancelledError" EmptyString false.
Definition cancelling : Collaborators :=
  collaborators no_claims (Returns fresh_token) (Raises cancelled).
Definition short_lived_token : AccessToken := mkAccessToken "tok-short" 1700000050.
Definition short_lived : Collaborators :=
  collaborators no_claims (Returns short_lived_token) (Returns (RDict answer)).
Definition provider_error : Exn :=
  mkExn "ClientAuthenticationError" "no credential available" true.
Definition unreachable_provider : Collaborators :=
  collaborators no_claims (Raises provider_error) (Returns (RDict answer)).

(** Requests that forge [auth_claims], or whose [context] is a string. *)
Definition forged_context : list (string * json) :=
  [("overrides", JDict [("top", JInt 3)]); ("auth_claims", JDict [("oid", JStr "admin")])].
Definition forging_body : list (string * json) :=
  [("messages", hi); ("context", JDict forged_context)].
Definition odd_context_body : list (string * json) :=
  [("messages", hi); ("context", JStr "none")].

(** A request declared as JSON whose body does not parse. *)
Definition post_garbage : Request :=
  mkRequest true None [("Content-Type", "application/json")].

(** The clock at 2^31 - 60 + 2^-22 seconds, where adding 60 is a tie that
    rounds down to 2^31, and a token expiring at 2^31. *)
Definition tie_time : spec_float := S754_finite false 9007199003082753 (-22).
Definition tie_token : AccessToken := mkAccessToken "tok-edge" (2 ^ 31).
Definition served_at_tie : World :=
  set_config CONFIG_OPENAI_TOKEN (CfgToken tie_token) (served_at "azure_ad" tie_time).
End Stub.


(** ** Requests of the ChatRequest shape, configured processes *)

(** A JSON request whose body is an object with [messages], and with
    [context] absent or an object. *)
Record ChatRequest (request : Request) (o : list (string * json))
    (messages : json) (context : list (string * json)) : Prop := {
  cr_is_json : is_json request = true;
  cr_body : parsed_body request = Some (JDict o);
  cr_messages : Dict.lookup "messages" o = Some messages;
  cr_context : default (JDict []) (Dict.lookup "context" o) = JDict context
}.

(** The process holds the auth helper and the chat approach, as after
    [setup_clients]. *)
Record Configured (w : World) (auth_helper : AuthenticationHelper)
    (approach : ChatReadRetrieveReadApproach) : Prop := {
  cf_auth : config w !! CONFIG_AUTH_CLIENT = Some (CfgAuthClient auth_helper);
  cf_approach : config w !! CONFIG_CHAT_APPROACH = Some (CfgApproach approach)
}.

(** The arguments [chat] passes to [approach.run] for a body [o]. *)
Definition stream_arg (o : list (string * json)) : json :=
  default (JBool false) (Dict.lookup "stream" o).
Definition session_state_arg (o : list (string * json)) : json :=
  default JNull (Dict.lookup "session_state" o).
Definition context_arg (context : list (string * json)) (claims : json) : json :=
  JDict (Dict.set "auth_claims" claims context).

(** The test of the hook on a stored token, [expires_on < time.time() + 60],
    as the code evaluates it: the sum is a float, the comparison is exact. *)
Definition within_margin (w : World) (tok : AccessToken) : bool :=
  int_lt_float (expires_on tok) (float_add (now w) (float_of_int 60)).

(** The number of [get_token] calls made so far. *)
Definition is_get_token (ev : Event) : bool :=
  match ev with EvGetToken _ _ => true | _ => false end.
Definition is_run (ev : Event) : bool :=
  match ev with EvRun _ _ _ _ _ => true | _ => false end.
Definition is_get_auth_claims (ev : Event) : bool :=
  match ev with EvGetAuthClaims _ _ => true | _ => false end.
Definition count (p : Event -> bool) (w : World) : nat :=
  length (filter (fun ev => p ev = true) (trace w)).

Definition TOKEN_SCOPE : string := "https://cognitiveservices.azure.com/.default".

(** The strings that spell [false] in upper or lower case letters. *)
Definition either_case (lower upper c : ascii) : bool :=
  Ascii.eqb c lower || Ascii.eqb c upper.
Definition spells_false (s : string) : bool :=
  match s with
  | String c1 (String c2 (String c3 (String c4 (String c5 EmptyString)))) =>
      either_case "f" "F" c1 && either_case "a" "A" c2 && either_case "l" "L" c3
      && either_case "s" "S" c4 && either_case "e" "E" c5
  | _ => false
  end.

(** ** Application factory *)

(** The steps [create_app] performs on the process and on the app object it
    returns, in the order of the source. *)
Inductive AppSetup : Type :=
  | ConfigureAzureMonitor
  | InstrumentAioHttpClient
  | NewQuart
  | RegisterBlueprint (name : string)
  | WrapOpenTelemetryMiddleware
  | LoggingBasicConfig (level : string)
  | LoggerInfo (msg : string)
  | Cors (allow_origin : string) (allow_methods : list Method).

(** Truth value of what [os.getenv(k)] returns: [None] and the empty string
    are false. *)
Definition truthy (v : option string) : bool :=
  match v with
  | Some (String _ _) => true
  | _ => false
  end.

Definition ValueError (msg : string) : Exn := mkExn "ValueError" msg true.

(** The level names [logging] knows (the keys of [logging._nameToLevel]). *)
Definition level_names : list string :=
  ["CRITICAL"; "FATAL"; "ERROR"; "WARN"; "WARNING"; "INFO"; "DEBUG"; "NOTSET"].

(** [logging.basicConfig(level=level)] for a [str] level.  It does nothing
    when the root logger has handlers already; otherwise it installs a
    handler and sets the level of the root logger, which raises
    [ValueError] for a string that is no level name (the message holds the
    [repr] of the level, here for one without quotes or escapes). *)
Definition logging_basicConfig (root_has_handlers : bool) (level : string) : Outcome unit :=
  if root_has_handlers then Returns tt
  else if bool_decide (level ∈ level_names) then Returns tt
  else Raises (ValueError ("Unknown level: '" +:+ level +:+ "'")).

(** [create_app()]: the steps performed, and whether the app is returned or
    an exception leaves the factory.  [root_has_handlers] says whether the
    root logger has handlers when [logging.basicConfig] is reached. *)
Definition create_app (environ : gmap string string) (root_has_handlers : bool)
  : list AppSetup * Outcome unit :=
  let steps :=
    ((if truthy (os_getenv environ "APPLICATIONINSIGHTS_CONNECTION_STRING")
      then [ConfigureAzureMonitor; InstrumentAioHttpClient] else [])
     ++ [NewQuart; RegisterBlueprint "routes"; WrapOpenTelemetryMiddleware])%list in
  let default_level :=
    if truthy (os_getenv environ "WEBSITE_HOSTNAME") then "WARNING" else "INFO" in
  let level := os_getenv_default environ "APP_LOG_LEVEL" default_level in
  let steps := (steps ++ [LoggingBasicConfig level])%list in
  match logging_basicConfig root_has_handlers level with
  | Raises e => (steps, Raises e)
  | Returns _ =>
      let allowed_origin := os_getenv environ "ALLOWED_ORIGIN" in
      ((steps ++
        (if truthy allowed_origin then
           [LoggerInfo ("CORS enabled for " +:+ default EmptyString allowed_origin);
            Cors (default EmptyString allowed_origin) [GET; POST]]
         else []))%list,
       Returns tt)
  end.

(** ** Vocabulary of the further properties *)

(** Induction on Python objects, through the lists and dicts they nest. *)
Definition json_induction (P : json -> Prop)
    (HNull : P JNull) (HBool : forall b, P (JBool b)) (HInt : forall n, P (JInt n))
    (HStr : forall s, P (JStr s))
    (HList : forall l, Forall P l -> P (JList l))
    (HDict : forall d, Forall (fun kv => P (snd kv)) d -> P (JDict d))
  : forall v, P v :=
  fix go (v : json) : P v :=
    match v with
    | JNull => HNull
    | JBool b => HBool b
    | JInt n => HInt n
    | JStr s => HStr s
    | JList l =>
        HList l ((fix go_list (l : list json) : Forall P l :=
                    match l with
                    | [] => @ListDef.Forall_nil _ P
                    | x :: l' => @ListDef.Forall_cons _ P x l' (go x) (go_list l')
                    end) l)
    | JDict d =>
        HDict d ((fix go_dict (d : list (string * json))
                    : Forall (fun kv => P (snd kv)) d :=
                    match d with
                    | [] => @ListDef.Forall_nil _ _
                    | kv :: d' =>
                        @ListDef.Forall_cons _ (fun kv => P (snd kv)) kv d' (go (snd kv)) (go_dict d')
                    end) d)
    end.

(** No character of the string is a control character (below 0x20). *)
Fixpoint no_control (s : string) : bool :=
  match s with
  | EmptyString => true
  | String c s' => (32 <=? nat_of_ascii c)%nat && no_control s'
  end.

(** The occurrences of a character in a string. *)
Fixpoint count_char (c : ascii) (s : string) : nat :=
  match s with
  | EmptyString => O
  | String c' s' => ((if Ascii.eqb c c' then 1 else 0) + count_char c s')%nat
  end.

(** [w'] is [w] after some more outgoing calls: the module globals, the
    [openai] globals, [current_app.config] and the clock are the same. *)
Record extends (w w' : World) : Prop := {
  ext_basepath : basepath w' = basepath w;
  ext_api_type : openai_api_type w' = openai_api_type w;
  ext_api_key : openai_api_key w' = openai_api_key w;
  ext_config : config w' = config w;
  ext_now : now w' = now w;
  ext_trace : exists evs : list Event, trace w' = (trace w ++ evs)%list
}.

(** As [extends], but the token slot of [current_app.config] and
    [openai.api_key] may have been replaced. *)
Record extends_but_token (w w' : World) : Prop := {
  ebt_basepath : basepath w' = basepath w;
  ebt_api_type : openai_api_type w' = openai_api_type w;
  ebt_config : forall k, k <> CONFIG_OPENAI_TOKEN -> config w' !! k = config w !! k;
  ebt_now : now w' = now w;
  ebt_trace : exists evs : list Event, trace w' = (trace w ++ evs)%list
}.

(** A computation keeps a relation between the state it starts from and the
    state it leaves, whether it returns or raises. *)
Definition keeps {A} (R : World -> World -> Prop) (m : M A) : Prop :=
  forall w, R w (snd (m w)).

(** Whatever a computation returns satisfies [P]. *)
Definition returns_only {A} (P : A -> Prop) (m : M A) : Prop :=
  forall w a w', m w = (Returns a, w') -> P a.

(** A computation makes at most [n] more calls of the kind [p], whether it
    returns or raises. *)
Definition adds_at_most {A} (p : Event -> bool) (n : nat) (m : M A) : Prop :=
  forall w, (count p w <= count p (snd (m w)) <= count p w + n)%nat.

(** * Properties *)

(** ** The relay *)

Lemma drain_from_format_as_ndjson (r : AsyncGenerator json) (fuel : nat) (s : gen_state r) :
  drain_from (format_as_ndjson r) fuel s =
    (map (fun event => json_dumps event +:+ LF) (fst (drain_from r fuel s)),
     snd (drain_from r fuel s)).
Proof.
  revert s. induction fuel as [|fuel IH]; intros s; [reflexivity|].
  cbn [drain_from format_as_ndjson gen_anext gen_state].
  destruct (gen_anext r s) as [event s'| |e]; try reflexivity.
  specialize (IH s'). cbn [format_as_ndjson gen_state] in IH. rewrite IH.
  destruct (drain_from r fuel s'). reflexivity.
Qed.

Lemma drain_format_as_ndjson (r : AsyncGenerator json) (fuel : nat) :
  drain (format_as_ndjson r) fuel =
    (map (fun event => json_dumps event +:+ LF) (fst (drain r fuel)), snd (drain r fuel)).
Proof. apply drain_from_format_as_ndjson. Qed.

(** ** Stepping through the handler *)

Section Steps.
Context `{Collaborators}.

Lemma bind_returns {A B} (m : M A) (k : A -> M B) w a w' :
  m w = (Returns a, w') -> bind m k w = k a w'.
Proof. intros E. unfold bind. now rewrite E. Qed.

Lemma bind_raises {A B} (m : M A) (k : A -> M B) w e w' :
  m w = (Raises e, w') -> bind m k w = (Raises e, w').
Proof. intros E. unfold bind. now rewrite E. Qed.

Lemma config_getitem_some k v w :
  config w !! k = Some v -> config_getitem k w = (Returns v, w).
Proof. intros E. unfold config_getitem, bind, get_world. now rewrite E. Qed.

Lemma config_getitem_none k w :
  config w !! k = None -> config_getitem k w = (Raises (KeyError k), w).
Proof. intros E. unfold config_getitem, bind, get_world. now rewrite E. Qed.

(** Up to the [try] statement: a request of the right shape, with the auth
    helper returning, reaches the [try] after one call to the helper. *)
Lemma chat_reaches_try request o context w auth_helper claims :
  is_json request = true ->
  parsed_body request = Some (JDict o) ->
  default (JDict []) (Dict.lookup "context" o) = JDict context ->
  config w !! CONFIG_AUTH_CLIENT = Some (CfgAuthClient auth_helper) ->
  get_auth_claims_if_enabled auth_helper (headers request) = Returns claims ->
  chat request w =
    try_except (chat_try (JDict o) (context_arg context claims)) chat_except
      (emit (EvGetAuthClaims auth_helper (headers request)) w).
Proof.
  intros Hj Hb Hc Ha Hcl. unfold chat. rewrite Hj. cbn [negb].
  unfold get_json. rewrite Hb.
  unfold bind at 1. cbn [ret py_get]. unfold bind at 1. cbn [ret]. rewrite Hc.
  rewrite (bind_returns _ _ _ _ _ (config_getitem_some _ _ _ Ha)).
  unfold call_get_auth_claims_if_enabled, as_auth_client.
  unfold bind at 1. unfold bind at 1. cbn [ret].
  unfold bind at 1. cbn [modify]. unfold lift. rewrite Hcl.
  reflexivity.
Qed.

(** An exception of the auth helper leaves [chat] before the [try]. *)
Lemma chat_auth_raises request o context w auth_helper e :
  is_json request = true ->
  parsed_body request = Some (JDict o) ->
  default (JDict []) (Dict.lookup "context" o) = JDict context ->
  config w !! CONFIG_AUTH_CLIENT = Some (CfgAuthClient auth_helper) ->
  get_auth_claims_if_enabled auth_helper (headers request) = Raises e ->
  chat request w = (Raises e, emit (EvGetAuthClaims auth_helper (headers request)) w).
Proof.
  intros Hj Hb Hc Ha Hcl. unfold chat. rewrite Hj. cbn [negb].
  unfold get_json. rewrite Hb.
  unfold bind at 1. cbn [ret py_get]. unfold bind at 1. cbn [ret]. rewrite Hc.
  rewrite (bind_returns _ _ _ _ _ (config_getitem_some _ _ _ Ha)).
  unfold call_get_auth_claims_if_enabled, as_auth_client.
  unfold bind at 1. unfold bind at 1. cbn [ret].
  unfold bind at 1. cbn [modify]. unfold lift. rewrite Hcl.
  reflexivity.
Qed.

(** Inside the [try] statement, up to the call of [approach.run]. *)
Lemma chat_try_calls_run o messages context w approach :
  Dict.lookup "messages" o = Some messages ->
  config w !! CONFIG_CHAT_APPROACH = Some (CfgApproach approach) ->
  chat_try (JDict o) context w =
    match run approach messages (stream_arg o) context (session_state_arg o) with
    | Returns (RDict d) =>
        (Returns (jsonify (JDict d)),
         emit (EvRun approach messages (stream_arg o) context (session_state_arg o)) w)
    | Returns (RAsyncGen g) =>
        (Returns (set_timeout_none (make_response (format_as_ndjson g))),
         emit (EvRun approach messages (stream_arg o) context (session_state_arg o)) w)
    | Raises e =>
        (Raises e,
         emit (EvRun approach messages (stream_arg o) context (session_state_arg o)) w)
    end.
Proof.
  intros Hm Ha. unfold chat_try.
  rewrite (bind_returns _ _ _ _ _ (config_getitem_some _ _ _ Ha)).
  unfold py_getitem. rewrite Hm.
  unfold bind at 1. cbn [ret]. unfold bind at 1. cbn [ret py_get].
  unfold bind at 1. cbn [ret].
  unfold call_run, as_approach. unfold bind at 1. unfold bind at 1. cbn [ret].
  unfold bind at 1. cbn [modify]. unfold lift.
  fold (stream_arg o). fold (session_state_arg o).
  destruct (run approach messages (stream_arg o) context (session_state_arg o))
    as [[d|g]|e]; reflexivity.
Qed.

End Steps.

(** ** The chat endpoint: responses *)

Section Chat.
Context `{Collaborators}.

(** C1.  A JSON request of the ChatRequest shape with [stream] true, for which
    [approach.run] returns an async generator [g], is answered with status
    200 by a streamed body with the read timeout disabled.  Whatever number
    of events the transport pulls, the chunks written are
    [json.dumps(event) + LF] for exactly the events [g] has produced, in the
    order [g] produced them, and the stream ends the way [g] ends; the body
    is their concatenation.  The helper and the approach are each called
    once. *)
Theorem chat_streams_events_as_ndjson request o messages context w auth_helper approach
    claims g :
  ChatRequest request o messages context ->
  Dict.lookup "stream" o = Some (JBool true) ->
  Configured w auth_helper approach ->
  get_auth_claims_if_enabled auth_helper (headers request) = Returns claims ->
  run approach messages (JBool true) (context_arg context claims) (session_state_arg o)
    = Returns (RAsyncGen g) ->
  exists lines,
    chat request w =
      (Returns (mkResponse (BodyStream lines) 200 TimeoutNone),
       emit (EvRun approach messages (JBool true) (context_arg context claims)
               (session_state_arg o))
         (emit (EvGetAuthClaims auth_helper (headers request)) w)) /\
    forall fuel,
      drain lines fuel =
        (map (fun event => json_dumps event +:+ LF) (fst (drain g fuel)),
         snd (drain g fuel)) /\
      stream_body lines fuel =
        (String.concat EmptyString
           (map (fun event => json_dumps event +:+ LF) (fst (drain g fuel))),
         snd (drain g fuel)).
Proof.
  intros Hreq Hs [Ha Hp] Hcl Hrun.
  exists (format_as_ndjson g). split.
  - rewrite (chat_reaches_try request o context w auth_helper claims
               (cr_is_json _ _ _ _ Hreq) (cr_body _ _ _ _ Hreq) (cr_context _ _ _ _ Hreq)
               Ha Hcl).
    unfold try_except.
    rewrite (chat_try_calls_run o messages (context_arg context claims)
               (emit (EvGetAuthClaims auth_helper (headers request)) w) approach
               (cr_messages _ _ _ _ Hreq) Hp).
    unfold stream_arg. rewrite Hs. cbn [from_option id]. rewrite Hrun. reflexivity.
  - intros fuel. unfold stream_body.
    rewrite drain_format_as_ndjson. split; reflexivity.
Qed.

(** C2.  A JSON request of the ChatRequest shape for which [approach.run]
    returns a dict is answered with [jsonify] of that dict, whole, with
    status 200. *)
Theorem chat_returns_dict_whole request o messages context w auth_helper approach claims d :
  ChatRequest request o messages context ->
  Configured w auth_helper approach ->
  get_auth_claims_if_enabled auth_helper (headers request) = Returns claims ->
  run approach messages (stream_arg o) (context_arg context claims) (session_state_arg o)
    = Returns (RDict d) ->
  chat request w =
    (Returns (mkResponse (BodyJson (JDict d)) 200 TimeoutDefault),
     emit (EvRun approach messages (stream_arg o) (context_arg context claims)
             (session_state_arg o))
       (emit (EvGetAuthClaims auth_helper (headers request)) w)).
Proof.
  intros Hreq [Ha Hp] Hcl Hrun.
  rewrite (chat_reaches_try request o context w auth_helper claims
             (cr_is_json _ _ _ _ Hreq) (cr_body _ _ _ _ Hreq) (cr_context _ _ _ _ Hreq)
             Ha Hcl).
  unfold try_except.
  rewrite (chat_try_calls_run o messages (context_arg context claims)
               (emit (EvGetAuthClaims auth_helper (headers request)) w) approach
               (cr_messages _ _ _ _ Hreq) Hp).
  rewrite Hrun. reflexivity.
Qed.

(** The first statement of [chat]: the reply to a request that is not
    declared as JSON. *)
Lemma chat_rejects_non_json request w :
  is_json request = false ->
  chat request w =
    (Returns (mkResponse (BodyJson (JDict [("error", JStr "request must be json")])) 415
                TimeoutDefault),
     w).
Proof. intros Hj. unfold chat. rewrite Hj. reflexivity. Qed.

Lemma chat_unparsable_body request w :
  is_json request = true ->
  parsed_body request = None ->
  chat request w = (Raises BadRequest, w).
Proof.
  intros Hj Hb. unfold chat. rewrite Hj. cbn [negb].
  unfold get_json. rewrite Hb. reflexivity.
Qed.

Lemma returns_only_ret {A} (P : A -> Prop) (a : A) : P a -> returns_only P (ret a).
Proof. intros Ha w a' w' [= <- _]. exact Ha. Qed.

Lemma returns_only_raise {A} (P : A -> Prop) (e : Exn) : returns_only P (raise e).
Proof. intros w a w' [=]. Qed.

Lemma returns_only_bind {A B} (P : B -> Prop) (m : M A) (k : A -> M B) :
  (forall a, returns_only P (k a)) -> returns_only P (bind m k).
Proof.
  intros Hk w b w'. unfold bind. destruct (m w) as [[a|e] w1]; [apply Hk | intros [=]].
Qed.

Lemma returns_only_try_except {A} (P : A -> Prop) (body : M A) (handler : Exn -> M A) :
  returns_only P body -> (forall e, returns_only P (handler e)) ->
  returns_only P (try_except body handler).
Proof.
  intros Hb Hh w a w'. unfold try_except.
  destruct (body w) as [[a0|e] w1] eqn:E.
  - intros [= <- _]. exact (Hb w a0 w1 E).
  - destruct (exn_is_Exception e); [apply Hh | intros [=]].
Qed.

(** A request declared as JSON is answered 200 or 500 when it is answered. *)
Lemma chat_json_status request w response w' :
  is_json request = true ->
  chat request w = (Returns response, w') ->
  status response = 200 \/ status response = 500.
Proof.
  intros Hj. unfold chat. rewrite Hj. cbn [negb].
  revert w response w'.
  change (returns_only (fun response => status response = 200 \/ status response = 500)
            (let* request_json := get_json request in
             let* context := py_get request_json "context" (JDict []) in
             let* auth_helper := config_getitem CONFIG_AUTH_CLIENT in
             let* claims := call_get_auth_claims_if_enabled auth_helper (headers request) in
             let* context := py_setitem context "auth_claims" claims in
             try_except (chat_try request_json context) chat_except)).
  do 5 (apply returns_only_bind; intros ?).
  apply returns_only_try_except.
  - unfold chat_try. do 5 (apply returns_only_bind; intros ?).
    match goal with |- returns_only _ (match ?r with _ => _ end) => destruct r end;
      apply returns_only_ret; left; reflexivity.
  - intros e. unfold chat_except. apply returns_only_bind. intros _.
    apply returns_only_ret. right. reflexivity.
Qed.

(** C4 (amended).  The handler tests the declared type of the request, not
    its body.  A request that is not declared as JSON ([request.is_json]
    false) is answered with status 415 and the body
    [{"error": "request must be json"}], and the process is left as it was:
    no call to the auth helper, to the credential or to the approach has
    been made and nothing in [current_app.config] has been replaced.  Status
    415 is given to no other request; one that is declared as JSON and
    whose body does not parse is not answered by the handler:
    [request.get_json()] raises [BadRequest], also before any call. *)
Theorem chat_answers_415_by_declared_type request w :
  (is_json request = false ->
   chat request w =
     (Returns (mkResponse (BodyJson (JDict [("error", JStr "request must be json")])) 415
                 TimeoutDefault),
      w)) /\
  (forall response w',
     chat request w = (Returns response, w') -> status response = 415 ->
     is_json request = false) /\
  (is_json request = true -> parsed_body request = None ->
   chat request w = (Raises BadRequest, w)).
Proof.
  split; [apply chat_rejects_non_json|]. split; [|apply chat_unparsable_body].
  intros response w' E Hst. destruct (is_json request) eqn:Hj; [|reflexivity].
  destruct (chat_json_status request w response w' Hj E) as [H2|H5];
    rewrite Hst in *; discriminate.
Qed.

End Chat.

(** ** The token gate *)

(** The comparison of an [int] with a finite float is that of the numbers. *)
Lemma int_lt_float_value (z : Z) (s : bool) (m : positive) (e : Z) :
  int_lt_float z (S754_finite s m e) = true <->
  (inject_Z z < float_value (S754_finite s m e))%Q.
Proof.
  unfold int_lt_float, float_value, Qlt.
  destruct e as [|p|p]; cbn [Qnum Qden inject_Z]; rewrite Z.ltb_lt.
  - now rewrite !Z.mul_1_r.
  - now rewrite !Z.mul_1_r.
  - now rewrite Z.mul_1_r, Pos2Z.inj_pow.
Qed.

Lemma count_emit p ev w :
  count p (emit ev w) = (count p w + (if p ev then 1 else 0))%nat.
Proof.
  unfold count, emit. cbn [trace].
  rewrite filter_app, length_app. f_equal.
  rewrite filter_cons, filter_nil.
  destruct (p ev); case_decide; try congruence; reflexivity.
Qed.

Lemma string_eqb_false (s t : string) : s <> t -> String.eqb s t = false.
Proof. intros Hne. now apply String.eqb_neq. Qed.

Section Gate.
Context `{Collaborators}.

(** With a static key the hook returns at its first statement. *)
Lemma ensure_openai_token_static w :
  openai_api_type w <> "azure_ad" -> ensure_openai_token w = (Returns None, w).
Proof.
  intros Hne. unfold ensure_openai_token, bind, get_world.
  now rewrite (string_eqb_false _ _ Hne).
Qed.

Lemma ensure_openai_token_missing w :
  openai_api_type w = "azure_ad" ->
  config w !! CONFIG_OPENAI_TOKEN = None ->
  ensure_openai_token w = (Raises (KeyError CONFIG_OPENAI_TOKEN), w).
Proof.
  intros Hty Hnone. unfold ensure_openai_token.
  unfold bind at 1. cbn [get_world]. rewrite Hty, String.eqb_refl. cbn [negb].
  now rewrite (bind_raises _ _ _ _ _ (config_getitem_none _ _ Hnone)).
Qed.

Lemma ensure_openai_token_kept w tok :
  openai_api_type w = "azure_ad" ->
  config w !! CONFIG_OPENAI_TOKEN = Some (CfgToken tok) ->
  within_margin w tok = false ->
  ensure_openai_token w = (Returns None, w).
Proof.
  intros Hty Htok Hfresh. unfold ensure_openai_token.
  unfold bind at 1. cbn [get_world]. rewrite Hty, String.eqb_refl. cbn [negb].
  rewrite (bind_returns _ _ _ _ _ (config_getitem_some _ _ _ Htok)).
  unfold bind at 1. cbn [as_token ret]. unfold bind at 1.
  unfold time_time, bind at 1. cbn [get_world ret].
  unfold within_margin in Hfresh. now rewrite Hfresh.
Qed.

Lemma ensure_openai_token_refreshed w tok cred :
  openai_api_type w = "azure_ad" ->
  config w !! CONFIG_OPENAI_TOKEN = Some (CfgToken tok) ->
  config w !! CONFIG_CREDENTIAL = Some (CfgCredential cred) ->
  within_margin w tok = true ->
  ensure_openai_token w =
    match get_token cred TOKEN_SCOPE with
    | Returns tok' =>
        (Returns None,
         set_api_key (token tok')
           (set_config CONFIG_OPENAI_TOKEN (CfgToken tok')
              (emit (EvGetToken cred TOKEN_SCOPE) w)))
    | Raises e => (Raises e, emit (EvGetToken cred TOKEN_SCOPE) w)
    end.
Proof.
  intros Hty Htok Hcred Hstale. unfold ensure_openai_token.
  unfold bind at 1. cbn [get_world]. rewrite Hty, String.eqb_refl. cbn [negb].
  rewrite (bind_returns _ _ _ _ _ (config_getitem_some _ _ _ Htok)).
  unfold bind at 1. cbn [as_token ret]. unfold bind at 1.
  unfold time_time, bind at 1. cbn [get_world ret].
  unfold within_margin in Hstale. rewrite Hstale.
  rewrite (bind_returns _ _ _ _ _ (config_getitem_some _ _ _ Hcred)).
  unfold call_get_token, as_credential.
  unfold bind at 1. unfold bind at 1. unfold bind at 1. cbn [ret].
  unfold bind at 1. cbn [modify]. unfold lift. fold TOKEN_SCOPE.
  destruct (get_token cred TOKEN_SCOPE) as [tok'|e]; reflexivity.
Qed.

(** The hook never answers the request itself. *)
Lemma ensure_openai_token_returns_none w rv w' :
  ensure_openai_token w = (Returns rv, w') -> rv = None.
Proof.
  unfold ensure_openai_token, bind, get_world, time_time, config_getitem,
    call_get_token, as_credential, as_token, modify, lift, ret, raise, bind.
  repeat (match goal with
          | |- context [match ?x with _ => _ end] => destruct x
          end; try congruence).
Qed.

End Gate.

Section GateProperties.
Context `{Collaborators}.

(** C3 (amended).  With [openai.api_type] equal to [azure_ad] and a token
    stored, the hook calls [get_token], once, exactly when the test of the
    code, [expires_on < time.time() + 60], holds: the sum is the float the
    addition rounds to, and the comparison with it is exact.  A stored token
    passes the hook unrefreshed exactly when the test fails.  After a
    refresh the token in effect is the one [get_token] returned: it is
    stored in [current_app.config] and its value is [openai.api_key],
    whatever its [expires_on] is.  With any other [openai.api_type] the hook
    returns at once whatever the process holds: it looks nothing up (a
    missing token would raise) and fetches nothing. *)
Theorem ensure_openai_token_refresh_policy w tok cred :
  openai_api_type w = "azure_ad" ->
  config w !! CONFIG_OPENAI_TOKEN = Some (CfgToken tok) ->
  config w !! CONFIG_CREDENTIAL = Some (CfgCredential cred) ->
  let w' := snd (ensure_openai_token w) in
  (count is_get_token w' = S (count is_get_token w) <-> within_margin w tok = true) /\
  (count is_get_token w' = count is_get_token w <-> within_margin w tok = false) /\
  (forall s m e,
     float_add (now w) (float_of_int 60) = S754_finite s m e ->
     (within_margin w tok = true <->
      (inject_Z (expires_on tok) < float_value (S754_finite s m e))%Q)) /\
  (within_margin w tok = false -> ensure_openai_token w = (Returns None, w)) /\
  (within_margin w tok = true ->
     forall tok', get_token cred TOKEN_SCOPE = Returns tok' ->
       fst (ensure_openai_token w) = Returns None /\
       config w' !! CONFIG_OPENAI_TOKEN = Some (CfgToken tok') /\
       openai_api_key w' = Some (token tok') /\
       trace w' = (trace w ++ [EvGetToken cred TOKEN_SCOPE])%list) /\
  (within_margin w tok = true ->
     forall e, get_token cred TOKEN_SCOPE = Raises e ->
       ensure_openai_token w = (Raises e, emit (EvGetToken cred TOKEN_SCOPE) w)) /\
  (forall w0 : World,
     openai_api_type w0 <> "azure_ad" -> ensure_openai_token w0 = (Returns None, w0)).
Proof.
  intros Hty Htok Hcred w'.
  assert (Hfetched : within_margin w tok = true ->
                     count is_get_token w' = S (count is_get_token w)).
  { intros Hs. subst w'.
    rewrite (ensure_openai_token_refreshed w tok cred Hty Htok Hcred Hs).
    destruct (get_token cred TOKEN_SCOPE) as [tok'|e]; cbn [snd].
    - change (count is_get_token (emit (EvGetToken cred TOKEN_SCOPE) w)
              = S (count is_get_token w)).
      rewrite count_emit. cbn [is_get_token]. lia.
    - rewrite count_emit. cbn [is_get_token]. lia. }
  assert (Hkept : within_margin w tok = false ->
                  count is_get_token w' = count is_get_token w).
  { intros Hs. subst w'.
    now rewrite (ensure_openai_token_kept w tok Hty Htok Hs). }
  split; [|split; [|split; [|split; [|split; [|split]]]]].
  - split; [|exact Hfetched].
    intros E. destruct (within_margin w tok) eqn:Hs; [reflexivity|].
    specialize (Hkept eq_refl). lia.
  - split; [|exact Hkept].
    intros E. destruct (within_margin w tok) eqn:Hs; [|reflexivity].
    specialize (Hfetched eq_refl). lia.
  - intros s m e Hsum. unfold within_margin. rewrite Hsum.
    apply int_lt_float_value.
  - intros Hs. exact (ensure_openai_token_kept w tok Hty Htok Hs).
  - intros Hs tok' Hget. subst w'.
    rewrite (ensure_openai_token_refreshed w tok cred Hty Htok Hcred Hs), Hget.
    cbn [fst snd]. split; [reflexivity|]. split; [|split; reflexivity].
    cbn [config set_api_key set_config]. apply lookup_insert_eq.
  - intros Hs e Hget.
    now rewrite (ensure_openai_token_refreshed w tok cred Hty Htok Hcred Hs), Hget.
  - intros w0. apply ensure_openai_token_static.
Qed.

(** C8 (the code does otherwise).  In the process that [setup_clients] leaves
    behind, [current_app.config] holds no token; with [openai.api_type] equal
    to [azure_ad] the hook then raises [KeyError('openai_token')] at the
    lookup, calls [get_token] not at all and stores nothing, so that the same
    happens at every later request, whichever the route. *)
Theorem ensure_openai_token_fails_on_missing_token
    (environ : gmap string string) (key : option string) (t : spec_float)
    (ep : Endpoint) (request : Request) :
  let w := snd (setup_clients environ (initial_world environ "azure_ad" key t)) in
  config w !! CONFIG_OPENAI_TOKEN = None /\
  ensure_openai_token w = (Raises (KeyError "openai_token"), w) /\
  full_dispatch_request ep request w = (Raises (KeyError "openai_token"), w) /\
  count is_get_token w = 0%nat.
Proof.
  intros w.
  assert (Hnone : config w !! CONFIG_OPENAI_TOKEN = None).
  { subst w. unfold setup_clients, bind, modify, initial_world. cbn [snd config set_config].
    rewrite !lookup_insert_ne by (compute; congruence). apply lookup_empty. }
  assert (Hgate : ensure_openai_token w = (Raises (KeyError "openai_token"), w)).
  { apply ensure_openai_token_missing; [reflexivity | exact Hnone]. }
  split; [exact Hnone|]. split; [exact Hgate|]. split.
  - unfold full_dispatch_request, before_request_funcs, preprocess_request.
    unfold bind at 1. unfold bind at 1. now rewrite Hgate.
  - reflexivity.
Qed.

(** C10.  The token hook is a [before_request] function of the blueprint:
    for every view of the blueprint (index, basepath, redirect, favicon,
    assets, chat, auth_setup), handling a request is the hook followed by
    the view.  So with [openai.api_type] equal to [azure_ad] and a stored
    token within the margin, a request to any route fetches a token, stores
    it, sets [openai.api_key] to its value, and only then runs the view. *)
Theorem token_hook_runs_before_every_view (ep : Endpoint) (request : Request) (w : World) :
  before_request_funcs = [ensure_openai_token] /\
  full_dispatch_request ep request w =
    bind ensure_openai_token (fun _ => view ep request) w /\
  (forall tok cred tok',
     openai_api_type w = "azure_ad" ->
     config w !! CONFIG_OPENAI_TOKEN = Some (CfgToken tok) ->
     config w !! CONFIG_CREDENTIAL = Some (CfgCredential cred) ->
     within_margin w tok = true ->
     get_token cred TOKEN_SCOPE = Returns tok' ->
     let w' := set_api_key (token tok')
                 (set_config CONFIG_OPENAI_TOKEN (CfgToken tok')
                    (emit (EvGetToken cred TOKEN_SCOPE) w)) in
     full_dispatch_request ep request w = view ep request w' /\
     openai_api_key w' = Some (token tok') /\
     config w' !! CONFIG_OPENAI_TOKEN = Some (CfgToken tok')).
Proof.
  assert (Hseq : full_dispatch_request ep request w =
                 bind ensure_openai_token (fun _ => view ep request) w).
  { unfold full_dispatch_request, before_request_funcs, preprocess_request.
    unfold bind. destruct (ensure_openai_token w) as [[rv|e] w1] eqn:E; [|reflexivity].
    apply ensure_openai_token_returns_none in E. subst rv. reflexivity. }
  split; [reflexivity|]. split; [exact Hseq|].
  intros tok cred tok' Hty Htok Hcred Hstale Hget w'.
  split; [|split; [reflexivity|]].
  - rewrite Hseq. unfold bind.
    rewrite (ensure_openai_token_refreshed w tok cred Hty Htok Hcred Hstale), Hget.
    reflexivity.
  - subst w'. unfold set_api_key, set_config. cbn [config].
    apply lookup_insert_eq.
Qed.

End GateProperties.


(** ** The chat endpoint: failures *)

Section ChatFailures.
Context `{Collaborators}.

(** What the [except] clause makes of an exception raised in the [try]. *)
Lemma try_except_chat_catches (body : M Response) w1 e w2 :
  body w1 = (Raises e, w2) ->
  exn_is_Exception e = true ->
  try_except body chat_except w1 =
    (Returns (mkResponse (BodyJson (JDict [("error", JStr (exn_str e))])) 500 TimeoutDefault),
     emit (EvLogException "Exception in /chat" e) w2).
Proof.
  intros Hb He. unfold try_except. rewrite Hb, He. reflexivity.
Qed.

(** C5 (amended).  A JSON request whose body is an object without [messages]
    (its [context] absent or an object) is not rejected up front: the auth
    helper is called, the lookup of [messages] inside the [try] raises
    [KeyError], which is logged, and the answer is status 500 with the body
    [{"error": "'messages'"}]; the approach is not called. *)
Theorem chat_missing_messages_answers_500 request o context w auth_helper claims approach :
  is_json request = true ->
  parsed_body request = Some (JDict o) ->
  Dict.lookup "messages" o = None ->
  default (JDict []) (Dict.lookup "context" o) = JDict context ->
  Configured w auth_helper approach ->
  get_auth_claims_if_enabled auth_helper (headers request) = Returns claims ->
  chat request w =
    (Returns (mkResponse (BodyJson (JDict [("error", JStr "'messages'")])) 500
                TimeoutDefault),
     emit (EvLogException "Exception in /chat" (KeyError "messages"))
       (emit (EvGetAuthClaims auth_helper (headers request)) w)) /\
  count is_get_auth_claims (snd (chat request w)) = S (count is_get_auth_claims w) /\
  count is_run (snd (chat request w)) = count is_run w.
Proof.
  intros Hj Hb Hm Hc [Ha Hp] Hcl.
  assert (E : chat request w =
    (Returns (mkResponse (BodyJson (JDict [("error", JStr "'messages'")])) 500
                TimeoutDefault),
     emit (EvLogException "Exception in /chat" (KeyError "messages"))
       (emit (EvGetAuthClaims auth_helper (headers request)) w))).
  { rewrite (chat_reaches_try request o context w auth_helper claims Hj Hb Hc Ha Hcl).
    apply (try_except_chat_catches _ _ (KeyError "messages")); [|reflexivity].
    unfold chat_try.
    assert (Hp' : config (emit (EvGetAuthClaims auth_helper (headers request)) w)
                    !! CONFIG_CHAT_APPROACH = Some (CfgApproach approach)) by exact Hp.
    rewrite (bind_returns _ _ _ _ _ (config_getitem_some _ _ _ Hp')).
    unfold py_getitem. rewrite Hm. reflexivity. }
  split; [exact E|]. rewrite E. cbn [snd].
  rewrite !count_emit. cbn [is_get_auth_claims is_run]. lia.
Qed.

(** C6 (amended).  When [approach.run] raises an exception [e] that is an
    [Exception], the handler logs it and answers status 500 with the body
    [{"error": str(e)}], whatever [str(e)] is, the empty string included;
    [approach.run] has been called once. *)
Theorem chat_maps_approach_exception_to_500 request o messages context w auth_helper
    approach claims e :
  ChatRequest request o messages context ->
  Configured w auth_helper approach ->
  get_auth_claims_if_enabled auth_helper (headers request) = Returns claims ->
  run approach messages (stream_arg o) (context_arg context claims) (session_state_arg o)
    = Raises e ->
  exn_is_Exception e = true ->
  chat request w =
    (Returns (mkResponse (BodyJson (JDict [("error", JStr (exn_str e))])) 500 TimeoutDefault),
     emit (EvLogException "Exception in /chat" e)
       (emit (EvRun approach messages (stream_arg o) (context_arg context claims)
                (session_state_arg o))
          (emit (EvGetAuthClaims auth_helper (headers request)) w))) /\
  count is_run (snd (chat request w)) = S (count is_run w).
Proof.
  intros Hreq [Ha Hp] Hcl Hrun He.
  assert (E : chat request w =
    (Returns (mkResponse (BodyJson (JDict [("error", JStr (exn_str e))])) 500 TimeoutDefault),
     emit (EvLogException "Exception in /chat" e)
       (emit (EvRun approach messages (stream_arg o) (context_arg context claims)
                (session_state_arg o))
          (emit (EvGetAuthClaims auth_helper (headers request)) w)))).
  { rewrite (chat_reaches_try request o context w auth_helper claims
               (cr_is_json _ _ _ _ Hreq) (cr_body _ _ _ _ Hreq) (cr_context _ _ _ _ Hreq)
               Ha Hcl).
    apply try_except_chat_catches; [|exact He].
    rewrite (chat_try_calls_run o messages (context_arg context claims)
               (emit (EvGetAuthClaims auth_helper (headers request)) w) approach
               (cr_messages _ _ _ _ Hreq) Hp).
    now rewrite Hrun. }
  split; [exact E|]. rewrite E. cbn [snd].
  rewrite !count_emit. cbn [is_run]. lia.
Qed.

(** C7 (amended).  For a JSON request whose body is an object (its [context]
    absent or an object): every [Exception] raised inside the [try]
    statement, that is by the lookup of the approach, by the lookup of
    [messages] or by [approach.run], is logged and answered with status 500
    and the body [{"error": str(e)}]; an exception raised by the auth helper
    is raised before the [try] statement and leaves the handler uncaught. *)
Theorem chat_catches_inside_try_only request o context w auth_helper :
  is_json request = true ->
  parsed_body request = Some (JDict o) ->
  default (JDict []) (Dict.lookup "context" o) = JDict context ->
  config w !! CONFIG_AUTH_CLIENT = Some (CfgAuthClient auth_helper) ->
  let w1 := emit (EvGetAuthClaims auth_helper (headers request)) w in
  (forall claims e w2,
     get_auth_claims_if_enabled auth_helper (headers request) = Returns claims ->
     chat_try (JDict o) (context_arg context claims) w1 = (Raises e, w2) ->
     exn_is_Exception e = true ->
     chat request w =
       (Returns (mkResponse (BodyJson (JDict [("error", JStr (exn_str e))])) 500
                   TimeoutDefault),
        emit (EvLogException "Exception in /chat" e) w2)) /\
  (forall e,
     get_auth_claims_if_enabled auth_helper (headers request) = Raises e ->
     chat request w = (Raises e, w1)).
Proof.
  intros Hj Hb Hc Ha w1. split.
  - intros claims e w2 Hcl Htry He.
    rewrite (chat_reaches_try request o context w auth_helper claims Hj Hb Hc Ha Hcl).
    now apply try_except_chat_catches.
  - intros e Hcl.
    exact (chat_auth_raises request o context w auth_helper e Hj Hb Hc Ha Hcl).
Qed.

End ChatFailures.

(** ** Start-up *)

Lemma ascii_lower_letters (c : ascii) :
  Ascii.eqb (ascii_lower c) "f" = either_case "f" "F" c /\
  Ascii.eqb (ascii_lower c) "a" = either_case "a" "A" c /\
  Ascii.eqb (ascii_lower c) "l" = either_case "l" "L" c /\
  Ascii.eqb (ascii_lower c) "s" = either_case "s" "S" c /\
  Ascii.eqb (ascii_lower c) "e" = either_case "e" "E" c.
Proof.
  destruct c as [[] [] [] [] [] [] [] []]; vm_compute; repeat split.
Qed.

Lemma str_lower_false (v : string) :
  String.eqb (str_lower v) "false" = spells_false v.
Proof.
  destruct v as [|c1 [|c2 [|c3 [|c4 [|c5 [|c6 v]]]]]];
    cbn [str_lower String.eqb spells_false]; try reflexivity;
    repeat match goal with
           | |- context [Ascii.eqb (ascii_lower ?c) _] =>
               destruct (ascii_lower_letters c) as (Lf & La & Ll & Ls & Le);
               rewrite ?Lf, ?La, ?Ll, ?Ls, ?Le; clear Lf La Ll Ls Le
           end;
    repeat match goal with
           | |- context [either_case ?l ?u ?c] => destruct (either_case l u c)
           end;
    reflexivity.
Qed.

Lemma setup_clients_auth_helper (environ : gmap string string) (w : World) :
  configured_auth_helper environ w =
    Some (mkAuthenticationHelper
            (String.eqb
               (str_lower (os_getenv_default environ "AZURE_USE_AUTHENTICATION" EmptyString))
               "false")
            (os_getenv environ "AZURE_SERVER_APP_ID")
            (os_getenv environ "AZURE_SERVER_APP_SECRET")
            (os_getenv environ "AZURE_CLIENT_APP_ID")
            (os_getenv environ "AZURE_TENANT_ID")
            (os_getenv environ "TOKEN_CACHE_PATH")).
Proof.
  unfold configured_auth_helper, setup_clients, bind, modify.
  cbn [snd config set_config].
  rewrite lookup_insert_ne by (compute; congruence).
  now rewrite lookup_insert_eq.
Qed.

(** C9.  [setup_clients] stores an [AuthenticationHelper] whose
    [use_authentication] is true exactly when [AZURE_USE_AUTHENTICATION],
    lowercased, is the string [false], that is when the variable is set to
    [false] in any mix of cases; it is disabled when the variable is unset
    and when it is [true]. *)
Theorem setup_clients_use_authentication (environ : gmap string string) (w : World) :
  exists auth_helper,
    configured_auth_helper environ w = Some auth_helper /\
    (use_authentication auth_helper = true <->
       str_lower (os_getenv_default environ "AZURE_USE_AUTHENTICATION" EmptyString) = "false") /\
    (use_authentication auth_helper = true <->
       exists v, environ !! "AZURE_USE_AUTHENTICATION" = Some v /\ spells_false v = true) /\
    (environ !! "AZURE_USE_AUTHENTICATION" = None ->
       use_authentication auth_helper = false) /\
    (environ !! "AZURE_USE_AUTHENTICATION" = Some "true" ->
       use_authentication auth_helper = false).
Proof.
  eexists. split; [apply setup_clients_auth_helper|].
  cbn [use_authentication]. unfold os_getenv_default.
  split; [apply String.eqb_eq|].
  rewrite str_lower_false.
  destruct (environ !! "AZURE_USE_AUTHENTICATION") as [v|]; cbn [from_option id].
  - split; [|split].
    + split; [intros E; exists v; now split | intros (v' & [= <-] & E); exact E].
    + discriminate.
    + intros [= ->]. reflexivity.
  - split; [|split].
    + split; [discriminate | intros (v' & [=] & _)].
    + reflexivity.
    + discriminate.
Qed.


(** * The properties at sample requests *)

(** ** Where the handler departs from C5, C6 and C7 *)

(** C5 as stated fails.  The body [{}] is JSON and has no [messages]: the
    answer has status 500, not 415, and the auth helper has been called. *)
Lemma chat_missing_messages_counterexample :
  fst (@chat Stub.answering (Stub.post_json (JDict [])) (Stub.served "azure")) =
    Returns (mkResponse (BodyJson (JDict [("error", JStr "'messages'")])) 500
               TimeoutDefault) /\
  500 <> 415 /\
  count is_get_auth_claims (Stub.served "azure") = 0%nat /\
  count is_get_auth_claims
    (snd (@chat Stub.answering (Stub.post_json (JDict [])) (Stub.served "azure"))) = 1%nat.
Proof.
  split; [vm_compute; reflexivity|]. split; [lia|].
  split; vm_compute; reflexivity.
Qed.

(** C6 as stated fails.  When [approach.run] raises an exception whose
    [str] is empty, the [error] member of the answer is the empty string. *)
Lemma chat_empty_error_counterexample :
  exn_is_Exception Stub.timeout_error = true /\
  fst (@chat Stub.failing (Stub.chat_request false) (Stub.served "azure")) =
    Returns (mkResponse (BodyJson (JDict [("error", JStr EmptyString)])) 500
               TimeoutDefault) /\
  ~ (exists s : string,
       s <> EmptyString /\
       fst (@chat Stub.failing (Stub.chat_request false) (Stub.served "azure")) =
         Returns (mkResponse (BodyJson (JDict [("error", JStr s)])) 500 TimeoutDefault)).
Proof.
  assert (E : fst (@chat Stub.failing (Stub.chat_request false) (Stub.served "azure")) =
              Returns (mkResponse (BodyJson (JDict [("error", JStr EmptyString)])) 500
                         TimeoutDefault))
    by (vm_compute; reflexivity).
  split; [reflexivity|]. split; [exact E|].
  intros (s & Hne & E'). rewrite E in E'. congruence.
Qed.

(** C7 as stated fails.  An exception raised by the auth helper is not
    turned into a response: it leaves the handler, and nothing is logged. *)
Lemma chat_auth_exception_counterexample :
  @chat Stub.unauthorized (Stub.chat_request false) (Stub.served "azure") =
    (Raises Stub.auth_error,
     emit (EvGetAuthClaims Stub.auth_helper []) (Stub.served "azure")) /\
  ~ (exists response w',
       @chat Stub.unauthorized (Stub.chat_request false) (Stub.served "azure") =
         (Returns response, w')).
Proof.
  assert (E : @chat Stub.unauthorized (Stub.chat_request false) (Stub.served "azure") =
              (Raises Stub.auth_error,
               emit (EvGetAuthClaims Stub.auth_helper []) (Stub.served "azure")))
    by (vm_compute; reflexivity).
  split; [exact E|]. intros (response & w' & E'). rewrite E in E'. discriminate.
Qed.

(** C4 as stated fails.  A request can declare JSON and carry a body that is
    not JSON: the handler then gives no 415 response, [request.get_json()]
    raises [BadRequest] (status 400). *)
Lemma chat_unparsable_body_counterexample :
  parsed_body Stub.post_garbage = None /\
  @chat Stub.answering Stub.post_garbage (Stub.served "azure") =
    (Raises BadRequest, Stub.served "azure") /\
  ~ (exists response w',
       @chat Stub.answering Stub.post_garbage (Stub.served "azure")
         = (Returns response, w') /\ status response = 415).
Proof.
  assert (E : @chat Stub.answering Stub.post_garbage (Stub.served "azure") =
              (Raises BadRequest, Stub.served "azure"))
    by (vm_compute; reflexivity).
  split; [reflexivity|]. split; [exact E|].
  intros (response & w' & E' & _). rewrite E in E'. discriminate.
Qed.

(** C3 as stated fails, twice.  A fetched token is used whatever its expiry:
    when the credential hands out a token with 50 seconds left, that token
    is stored and is [openai.api_key] after the hook.  And the test is made
    on the rounded sum: at 2^31 - 60 + 2^-22 seconds a token expiring at 2^31
    has less than 60 seconds left, the sum rounds to 2^31, and the hook does
    not fetch. *)
Lemma ensure_openai_token_margin_counterexample :
  (fst (@ensure_openai_token Stub.short_lived (Stub.served_with "azure_ad" Stub.stale_token))
     = Returns None /\
   config (snd (@ensure_openai_token Stub.short_lived
                  (Stub.served_with "azure_ad" Stub.stale_token)))
     !! CONFIG_OPENAI_TOKEN = Some (CfgToken Stub.short_lived_token) /\
   openai_api_key (snd (@ensure_openai_token Stub.short_lived
                          (Stub.served_with "azure_ad" Stub.stale_token)))
     = Some (token Stub.short_lived_token) /\
   (inject_Z (expires_on Stub.short_lived_token)
      - float_value (now (Stub.served_with "azure_ad" Stub.stale_token)) < 60)%Q) /\
  (config Stub.served_at_tie !! CONFIG_OPENAI_TOKEN = Some (CfgToken Stub.tie_token) /\
   (inject_Z (expires_on Stub.tie_token) < float_value (now Stub.served_at_tie) + 60)%Q /\
   @ensure_openai_token Stub.answering Stub.served_at_tie
     = (Returns None, Stub.served_at_tie) /\
   count is_get_token Stub.served_at_tie = 0%nat).
Proof.
  split.
  - split; [vm_compute; reflexivity|]. split; [vm_compute; reflexivity|].
    split; vm_compute; reflexivity.
  - split; [vm_compute; reflexivity|]. split; [vm_compute; reflexivity|].
    split; vm_compute; reflexivity.
Qed.

(** ** The theorems at sample requests *)

(** The streamed scenario: two events, pulled until the generator ends. *)
Lemma chat_streams_events_as_ndjson_witness :
  ChatRequest (Stub.chat_request true)
    [("messages", Stub.hi); ("stream", JBool true)] Stub.hi [] /\
  Configured (Stub.served "azure") Stub.auth_helper Stub.approach /\
  exists lines,
    fst (@chat Stub.streaming (Stub.chat_request true) (Stub.served "azure")) =
      Returns (mkResponse (BodyStream lines) 200 TimeoutNone) /\
    stream_body lines 3 =
      (String.concat EmptyString (map (fun event => json_dumps event +:+ LF) Stub.deltas),
       Exhausted).
Proof.
  assert (Hreq : ChatRequest (Stub.chat_request true)
                   [("messages", Stub.hi); ("stream", JBool true)] Stub.hi [])
    by (constructor; reflexivity).
  assert (Hcfg : Configured (Stub.served "azure") Stub.auth_helper Stub.approach)
    by (constructor; reflexivity).
  split; [exact Hreq|]. split; [exact Hcfg|].
  destruct (@chat_streams_events_as_ndjson Stub.streaming (Stub.chat_request true)
              [("messages", Stub.hi); ("stream", JBool true)] Stub.hi []
              (Stub.served "azure") Stub.auth_helper Stub.approach (JDict [])
              (gen_of_list Stub.deltas None) Hreq eq_refl Hcfg eq_refl eq_refl)
    as (lines & E & Hd).
  exists lines. split.
  - rewrite E. reflexivity.
  - destruct (Hd 3%nat) as [_ Hbody]. rewrite Hbody. reflexivity.
Defined.

(** The scenario of the spec: the stub answers [{"answer": "hello"}]. *)
Lemma chat_returns_dict_whole_witness :
  ChatRequest (Stub.chat_request false)
    [("messages", Stub.hi); ("stream", JBool false)] Stub.hi [] /\
  Configured (Stub.served "azure") Stub.auth_helper Stub.approach /\
  fst (@chat Stub.answering (Stub.chat_request false) (Stub.served "azure")) =
    Returns (mkResponse (BodyJson (JDict [("answer", JStr "hello")])) 200 TimeoutDefault).
Proof.
  assert (Hreq : ChatRequest (Stub.chat_request false)
                   [("messages", Stub.hi); ("stream", JBool false)] Stub.hi [])
    by (constructor; reflexivity).
  assert (Hcfg : Configured (Stub.served "azure") Stub.auth_helper Stub.approach)
    by (constructor; reflexivity).
  split; [exact Hreq|]. split; [exact Hcfg|].
  rewrite (@chat_returns_dict_whole Stub.answering (Stub.chat_request false)
             [("messages", Stub.hi); ("stream", JBool false)] Stub.hi []
             (Stub.served "azure") Stub.auth_helper Stub.approach (JDict [])
             Stub.answer Hreq Hcfg eq_refl eq_refl).
  reflexivity.
Defined.

Lemma ensure_openai_token_refresh_policy_witness :
  openai_api_type (Stub.served_with "azure_ad" Stub.stale_token) = "azure_ad" /\
  config (Stub.served_with "azure_ad" Stub.stale_token) !! CONFIG_OPENAI_TOKEN
    = Some (CfgToken Stub.stale_token) /\
  config (Stub.served_with "azure_ad" Stub.stale_token) !! CONFIG_CREDENTIAL
    = Some (CfgCredential Stub.credential) /\
  within_margin (Stub.served_with "azure_ad" Stub.stale_token) Stub.stale_token = true /\
  count is_get_token
    (snd (@ensure_openai_token Stub.answering
            (Stub.served_with "azure_ad" Stub.stale_token))) = 1%nat /\
  openai_api_key
    (snd (@ensure_openai_token Stub.answering
            (Stub.served_with "azure_ad" Stub.stale_token))) = Some "tok-new".
Proof.
  assert (Hstale : within_margin (Stub.served_with "azure_ad" Stub.stale_token)
                     Stub.stale_token = true)
    by (vm_compute; reflexivity).
  split; [reflexivity|]. split; [reflexivity|]. split; [reflexivity|].
  split; [exact Hstale|].
  destruct (@ensure_openai_token_refresh_policy Stub.answering
              (Stub.served_with "azure_ad" Stub.stale_token) Stub.stale_token
              Stub.credential eq_refl eq_refl eq_refl)
    as ([_ Hfetch] & _ & _ & _ & Hnew & _).
  split; [exact (Hfetch Hstale)|].
  destruct (Hnew Hstale Stub.fresh_token eq_refl) as (_ & _ & Hkey & _).
  exact Hkey.
Defined.

Lemma chat_answers_415_by_declared_type_witness :
  is_json Stub.post_text = false /\
  @chat Stub.answering Stub.post_text (Stub.served "azure") =
    (Returns (mkResponse (BodyJson (JDict [("error", JStr "request must be json")])) 415
                TimeoutDefault),
     Stub.served "azure") /\
  is_json Stub.post_garbage = true /\
  parsed_body Stub.post_garbage = None /\
  @chat Stub.answering Stub.post_garbage (Stub.served "azure") =
    (Raises BadRequest, Stub.served "azure").
Proof.
  destruct (@chat_answers_415_by_declared_type Stub.answering Stub.post_text
              (Stub.served "azure")) as (H415 & _ & _).
  destruct (@chat_answers_415_by_declared_type Stub.answering Stub.post_garbage
              (Stub.served "azure")) as (_ & _ & H400).
  split; [reflexivity|]. split; [exact (H415 eq_refl)|].
  split; [reflexivity|]. split; [reflexivity|].
  exact (H400 eq_refl eq_refl).
Defined.

Lemma chat_missing_messages_answers_500_witness :
  Dict.lookup "messages" ([] : list (string * json)) = None /\
  Configured (Stub.served "azure") Stub.auth_helper Stub.approach /\
  fst (@chat Stub.answering (Stub.post_json (JDict [])) (Stub.served "azure")) =
    Returns (mkResponse (BodyJson (JDict [("error", JStr "'messages'")])) 500
               TimeoutDefault).
Proof.
  assert (Hcfg : Configured (Stub.served "azure") Stub.auth_helper Stub.approach)
    by (constructor; reflexivity).
  split; [reflexivity|]. split; [exact Hcfg|].
  destruct (@chat_missing_messages_answers_500 Stub.answering (Stub.post_json (JDict []))
              [] [] (Stub.served "azure") Stub.auth_helper (JDict []) Stub.approach
              eq_refl eq_refl eq_refl eq_refl Hcfg eq_refl) as [E _].
  rewrite E. reflexivity.
Defined.

Lemma chat_maps_approach_exception_to_500_witness :
  ChatRequest (Stub.chat_request false)
    [("messages", Stub.hi); ("stream", JBool false)] Stub.hi [] /\
  Configured (Stub.served "azure") Stub.auth_helper Stub.approach /\
  exn_is_Exception Stub.timeout_error = true /\
  fst (@chat Stub.failing (Stub.chat_request false) (Stub.served "azure")) =
    Returns (mkResponse (BodyJson (JDict [("error", JStr (exn_str Stub.timeout_error))]))
               500 TimeoutDefault) /\
  count is_run (snd (@chat Stub.failing (Stub.chat_request false) (Stub.served "azure")))
    = 1%nat.
Proof.
  assert (Hreq : ChatRequest (Stub.chat_request false)
                   [("messages", Stub.hi); ("stream", JBool false)] Stub.hi [])
    by (constructor; reflexivity).
  assert (Hcfg : Configured (Stub.served "azure") Stub.auth_helper Stub.approach)
    by (constructor; reflexivity).
  split; [exact Hreq|]. split; [exact Hcfg|]. split; [reflexivity|].
  destruct (@chat_maps_approach_exception_to_500 Stub.failing (Stub.chat_request false)
              [("messages", Stub.hi); ("stream", JBool false)] Stub.hi []
              (Stub.served "azure") Stub.auth_helper Stub.approach (JDict [])
              Stub.timeout_error Hreq Hcfg eq_refl eq_refl eq_refl) as [E Hcount].
  split; [rewrite E; reflexivity | exact Hcount].
Defined.

Lemma chat_catches_inside_try_only_witness :
  is_json (Stub.chat_request false) = true /\
  get_auth_claims_if_enabled (Collaborators := Stub.unauthorized) Stub.auth_helper []
    = Raises Stub.auth_error /\
  @chat Stub.unauthorized (Stub.chat_request false) (Stub.served "azure") =
    (Raises Stub.auth_error,
     emit (EvGetAuthClaims Stub.auth_helper []) (Stub.served "azure")).
Proof.
  split; [reflexivity|]. split; [reflexivity|].
  destruct (@chat_catches_inside_try_only Stub.unauthorized (Stub.chat_request false)
              [("messages", Stub.hi); ("stream", JBool false)] []
              (Stub.served "azure") Stub.auth_helper eq_refl eq_refl eq_refl eq_refl)
    as [_ Hescape].
  exact (Hescape Stub.auth_error eq_refl).
Defined.

Lemma setup_clients_use_authentication_witness :
  exists auth_helper,
    configured_auth_helper {["AZURE_USE_AUTHENTICATION" := "False"]}
      (initial_world ∅ "azure" None (float_of_int 0)) = Some auth_helper /\
    use_authentication auth_helper = true.
Proof.
  destruct (setup_clients_use_authentication {["AZURE_USE_AUTHENTICATION" := "False"]}
              (initial_world ∅ "azure" None (float_of_int 0))) as (h & E & _ & Hspell & _).
  exists h. split; [exact E|].
  apply Hspell. exists "False". split; reflexivity.
Defined.

Lemma token_hook_runs_before_every_view_witness :
  within_margin (Stub.served_with "azure_ad" Stub.stale_token) Stub.stale_token = true /\
  @full_dispatch_request Stub.answering EpRedirect Stub.post_text
      (Stub.served_with "azure_ad" Stub.stale_token) =
    @view Stub.answering EpRedirect Stub.post_text
      (set_api_key (token Stub.fresh_token)
         (set_config CONFIG_OPENAI_TOKEN (CfgToken Stub.fresh_token)
            (emit (EvGetToken Stub.credential TOKEN_SCOPE)
               (Stub.served_with "azure_ad" Stub.stale_token)))).
Proof.
  assert (Hstale : within_margin (Stub.served_with "azure_ad" Stub.stale_token)
                     Stub.stale_token = true)
    by (vm_compute; reflexivity).
  split; [exact Hstale|].
  destruct (@token_hook_runs_before_every_view Stub.answering EpRedirect Stub.post_text
              (Stub.served_with "azure_ad" Stub.stale_token)) as (_ & _ & Hrefresh).
  exact (proj1 (Hrefresh Stub.stale_token Stub.credential Stub.fresh_token
                  eq_refl eq_refl eq_refl Hstale eq_refl)).
Defined.

(** * Further properties *)

(** ** One event, one line *)

Lemma no_control_app (s t : string) :
  no_control (s +:+ t) = no_control s && no_control t.
Proof.
  induction s as [|c s IH]; [reflexivity|].
  change (no_control (String c (s +:+ t)) = no_control (String c s) && no_control t).
  cbn [no_control]. rewrite IH. now rewrite andb_assoc.
Qed.

Lemma escape_char_no_control (c : ascii) : no_control (escape_char c) = true.
Proof. destruct c as [[] [] [] [] [] [] [] []]; vm_compute; reflexivity. Qed.

Lemma escape_string_no_control (s : string) : no_control (escape_string s) = true.
Proof.
  induction s as [|c s IH]; [reflexivity|].
  cbn [escape_string]. now rewrite no_control_app, escape_char_no_control, IH.
Qed.

Lemma encode_basestring_no_control (s : string) :
  no_control (encode_basestring s) = true.
Proof.
  unfold encode_basestring. cbn [no_control].
  now rewrite no_control_app, escape_string_no_control.
Qed.

Lemma join_no_control (sep : string) (l : list string) :
  no_control sep = true ->
  Forall (fun s => no_control s = true) l ->
  no_control (join sep l) = true.
Proof.
  intros Hsep Hl. induction Hl as [|x l Hx Hl IH]; [reflexivity|].
  destruct l as [|y l]; [exact Hx|].
  change (no_control (x +:+ sep +:+ join sep (y :: l)) = true).
  now rewrite !no_control_app, Hx, Hsep, IH.
Qed.

Lemma pretty_N_go_no_control (x : N) (s : string) :
  no_control s = true -> no_control (pretty_N_go x s) = true.
Proof.
  revert s. induction (N.lt_wf_0 x) as [x _ IH]; intros s Hs.
  assert (x = 0 \/ 0 < x)%N as [->|Hpos] by lia.
  - now rewrite pretty_N_go_0.
  - rewrite pretty_N_go_step by exact Hpos.
    apply IH; [apply N.div_lt; lia|].
    cbn [no_control]. rewrite Hs, andb_true_r.
    unfold pretty_N_char. repeat case_match; reflexivity.
Qed.

Lemma pretty_Z_no_control (n : Z) : no_control (pretty n) = true.
Proof.
  assert (HN : forall x : N, no_control (pretty x) = true).
  { intros x. unfold pretty, pretty_N. case_decide; [reflexivity|].
    now apply pretty_N_go_no_control. }
  destruct n as [|p|p]; [reflexivity | exact (HN (Npos p)) |].
  change (no_control ("-" +:+ pretty (Npos p)) = true).
  now rewrite no_control_app, HN.
Qed.

Lemma json_dumps_no_control (v : json) : no_control (json_dumps v) = true.
Proof.
  induction v as [|b|n|s|l IH|d IH] using json_induction.
  - reflexivity.
  - now destruct b.
  - apply pretty_Z_no_control.
  - apply encode_basestring_no_control.
  - cbn [json_dumps]. rewrite !no_control_app.
    apply Bool.andb_true_iff. split; [reflexivity|].
    apply Bool.andb_true_iff. split; [|reflexivity].
    apply join_no_control; [reflexivity|].
    induction IH as [|x l Hx _ IHl]; constructor; assumption.
  - cbn [json_dumps]. rewrite !no_control_app.
    apply Bool.andb_true_iff. split; [reflexivity|].
    apply Bool.andb_true_iff. split; [|reflexivity].
    apply join_no_control; [reflexivity|].
    induction IH as [|kv d Hkv _ IHd]; constructor; [|assumption].
    now rewrite !no_control_app, encode_basestring_no_control, Hkv.
Qed.

Lemma count_char_app (c : ascii) (s t : string) :
  count_char c (s +:+ t) = (count_char c s + count_char c t)%nat.
Proof.
  induction s as [|c' s IH]; [reflexivity|].
  change (count_char c (String c' (s +:+ t))
          = (count_char c (String c' s) + count_char c t)%nat).
  cbn [count_char]. rewrite IH. lia.
Qed.

Lemma count_control_char (c : ascii) (s : string) :
  (nat_of_ascii c < 32)%nat -> no_control s = true -> count_char c s = O.
Proof.
  intros Hc. induction s as [|c' s IH]; [reflexivity|].
  cbn [no_control count_char]. intros [Hc' Hs]%andb_prop.
  rewrite (IH Hs). apply Nat.leb_le in Hc'.
  destruct (Ascii.eqb_spec c c') as [->|_]; lia.
Qed.

Lemma line_feed_is_control : (nat_of_ascii (ascii_of_nat 10) < 32)%nat.
Proof. vm_compute. lia. Qed.

Lemma count_newlines_of_lines (events : list json) :
  count_char (ascii_of_nat 10)
    (String.concat EmptyString (map (fun event => json_dumps event +:+ LF) events))
  = length events.
Proof.
  assert (Hline : forall event, count_char (ascii_of_nat 10) (json_dumps event +:+ LF) = 1%nat).
  { intros event. rewrite count_char_app.
    rewrite (count_control_char _ _ line_feed_is_control (json_dumps_no_control event)).
    reflexivity. }
  induction events as [|event events IH]; [reflexivity|].
  destruct events as [|event' events].
  - cbn [map String.concat length]. apply Hline.
  - change (count_char (ascii_of_nat 10)
              ((json_dumps event +:+ LF) +:+ EmptyString +:+
               String.concat EmptyString
                 (map (fun event => json_dumps event +:+ LF) (event' :: events)))
            = S (length (event' :: events))).
    rewrite (count_char_app _ (json_dumps event +:+ LF)), Hline, count_char_app, IH.
    reflexivity.
Qed.

(** X1.  [json.dumps] of an event has no control character, so no raw line
    feed: every chunk [format_as_ndjson] yields holds exactly one line feed,
    its last character, and the body streamed so far has as many line feeds
    as events were relayed. *)
Theorem format_as_ndjson_one_event_per_line (r : AsyncGenerator json) (fuel : nat) :
  (forall event, no_control (json_dumps event) = true) /\
  Forall (fun chunk => count_char (ascii_of_nat 10) chunk = 1%nat
                       /\ exists line, chunk = line +:+ LF /\ no_control line = true)
    (fst (drain (format_as_ndjson r) fuel)) /\
  count_char (ascii_of_nat 10) (fst (stream_body (format_as_ndjson r) fuel))
    = length (fst (drain r fuel)).
Proof.
  split; [exact json_dumps_no_control|].
  unfold stream_body. rewrite drain_format_as_ndjson. cbn [fst]. split.
  - apply Forall_forall. intros chunk Hin.
    apply list_elem_of_In, in_map_iff in Hin. destruct Hin as (event & <- & _). split.
    + rewrite count_char_app.
      rewrite (count_control_char _ _ line_feed_is_control (json_dumps_no_control event)).
      reflexivity.
    + exists (json_dumps event). split; [reflexivity | apply json_dumps_no_control].
  - apply count_newlines_of_lines.
Qed.

(** ** What a request leaves untouched *)

Section Keeps.
Context (R : World -> World -> Prop).
Context (R_refl : forall w, R w w).
Context (R_trans : forall w1 w2 w3, R w1 w2 -> R w2 w3 -> R w1 w3).

Lemma keeps_ret {A} (a : A) : keeps R (ret a).
Proof. intros w. apply R_refl. Qed.

Lemma keeps_raise {A} (e : Exn) : keeps R (raise (A := A) e).
Proof. intros w. apply R_refl. Qed.

Lemma keeps_lift {A} (o : Outcome A) : keeps R (lift o).
Proof. intros w. apply R_refl. Qed.

Lemma keeps_get_world : keeps R get_world.
Proof. intros w. apply R_refl. Qed.

Lemma keeps_modify (f : World -> World) : (forall w, R w (f w)) -> keeps R (modify f).
Proof. intros Hf w. apply Hf. Qed.

Lemma keeps_bind {A B} (m : M A) (k : A -> M B) :
  keeps R m -> (forall a, keeps R (k a)) -> keeps R (bind m k).
Proof.
  intros Hm Hk w. unfold bind. specialize (Hm w).
  destruct (m w) as [[a|e] w1]; cbn [snd] in *; [|exact Hm].
  exact (R_trans _ _ _ Hm (Hk a w1)).
Qed.

Lemma keeps_try_except {A} (body : M A) (handler : Exn -> M A) :
  keeps R body -> (forall e, keeps R (handler e)) -> keeps R (try_except body handler).
Proof.
  intros Hb Hh w. unfold try_except. specialize (Hb w).
  destruct (body w) as [[a|e] w1]; cbn [snd] in *; [exact Hb|].
  destruct (exn_is_Exception e); [|exact Hb].
  exact (R_trans _ _ _ Hb (Hh e w1)).
Qed.

Lemma keeps_config_getitem k : keeps R (config_getitem k).
Proof.
  unfold config_getitem. apply keeps_bind; [apply keeps_get_world|].
  intros w. destruct (config w !! k); [apply keeps_ret | apply keeps_raise].
Qed.

Lemma keeps_py_get v k dflt : keeps R (py_get v k dflt).
Proof. destruct v; first [apply keeps_ret | apply keeps_raise]. Qed.

Lemma keeps_py_getitem v k : keeps R (py_getitem v k).
Proof.
  destruct v; cbn [py_getitem]; try apply keeps_raise.
  destruct (Dict.lookup k d); [apply keeps_ret | apply keeps_raise].
Qed.

Lemma keeps_py_setitem v k x : keeps R (py_setitem v k x).
Proof. destruct v; first [apply keeps_ret | apply keeps_raise]. Qed.

Lemma keeps_get_json request : keeps R (get_json request).
Proof.
  unfold get_json. destruct (parsed_body request); [apply keeps_ret | apply keeps_raise].
Qed.

End Keeps.

Lemma extends_refl w : extends w w.
Proof. constructor; try reflexivity. exists []. now rewrite app_nil_r. Qed.

Lemma extends_trans w1 w2 w3 : extends w1 w2 -> extends w2 w3 -> extends w1 w3.
Proof.
  intros [B1 T1 K1 C1 N1 [evs1 E1]] [B2 T2 K2 C2 N2 [evs2 E2]].
  constructor; try congruence.
  exists (evs1 ++ evs2)%list. rewrite E2, E1. now rewrite app_assoc.
Qed.

Lemma extends_emit ev w : extends w (emit ev w).
Proof. constructor; try reflexivity. now exists [ev]. Qed.

Lemma extends_but_token_refl w : extends_but_token w w.
Proof. constructor; try reflexivity. exists []. now rewrite app_nil_r. Qed.

Lemma extends_but_token_trans w1 w2 w3 :
  extends_but_token w1 w2 -> extends_but_token w2 w3 -> extends_but_token w1 w3.
Proof.
  intros [B1 T1 C1 N1 [evs1 E1]] [B2 T2 C2 N2 [evs2 E2]].
  constructor; try congruence.
  - intros k Hk. now rewrite C2, C1.
  - exists (evs1 ++ evs2)%list. rewrite E2, E1. now rewrite app_assoc.
Qed.

Lemma extends_but_token_of_extends w w' : extends w w' -> extends_but_token w w'.
Proof.
  intros [B T K C N E]. constructor; try assumption. intros k _. now rewrite C.
Qed.

Section Frame.
Context `{Collaborators}.

Local Ltac keeps_step R_refl R_trans :=
  first
    [ apply (keeps_ret _ R_refl)
    | apply (keeps_raise _ R_refl)
    | apply (keeps_lift _ R_refl)
    | apply (keeps_get_world _ R_refl)
    | apply (keeps_config_getitem _ R_refl R_trans)
    | apply (keeps_py_get _ R_refl)
    | apply (keeps_py_getitem _ R_refl)
    | apply (keeps_py_setitem _ R_refl)
    | apply (keeps_get_json _ R_refl)
    | apply (keeps_bind _ R_trans); [|intros ?]
    | apply (keeps_try_except _ R_trans); [|intros ?] ].

Lemma keeps_calls :
  (forall obj hs, keeps extends (call_get_auth_claims_if_enabled obj hs)) /\
  (forall obj, keeps extends (call_get_auth_setup_for_client obj)) /\
  (forall obj scope, keeps extends (call_get_token obj scope)) /\
  (forall obj m s c ss, keeps extends (call_run obj m s c ss)).
Proof.
  repeat split; intros;
    unfold call_get_auth_claims_if_enabled, call_get_auth_setup_for_client,
      call_get_token, call_run, as_auth_client, as_credential, as_approach;
    (apply (keeps_bind _ extends_trans);
     [destruct obj; first [apply (keeps_ret _ extends_refl) | apply (keeps_raise _ extends_refl)]
     |intros ?]);
    (apply (keeps_bind _ extends_trans);
     [apply keeps_modify; intros ?; apply extends_emit
     |intros ?; apply (keeps_lift _ extends_refl)]).
Qed.

Lemma keeps_chat request : keeps extends (chat request).
Proof.
  destruct keeps_calls as (Hclaims & _ & _ & Hrun).
  unfold chat. destruct (negb (is_json request)); [apply (keeps_ret _ extends_refl)|].
  repeat first [apply Hclaims | apply Hrun | keeps_step extends_refl extends_trans].
  - match goal with |- keeps _ (match ?r with _ => _ end) => destruct r end;
      apply (keeps_ret _ extends_refl).
  - apply keeps_modify. intros ?. apply extends_emit.
Qed.

Lemma keeps_view ep request : keeps extends (view ep request).
Proof.
  destruct keeps_calls as (_ & Hsetup & _ & _).
  destruct ep; cbn [view];
    unfold index, favicon, assets, redirect, get_basepath, auth_setup,
      send_static_file, send_from_directory;
    try apply keeps_chat;
    repeat first [apply Hsetup | keeps_step extends_refl extends_trans].
Qed.

(** X2.  No view of the blueprint changes the process: whatever the request
    and whether the view returns or raises, [current_app.config],
    [openai.api_key], [openai.api_type] and [basepath] are as before, and the
    calls made so far are only added to. *)
Theorem views_keep_process_state (ep : Endpoint) (request : Request) (w : World) :
  extends w (snd (view ep request w)).
Proof. apply keeps_view. Qed.

Lemma keeps_ensure_openai_token : keeps extends_but_token ensure_openai_token.
Proof.
  destruct keeps_calls as (_ & _ & Htoken & _).
  unfold ensure_openai_token.
  apply (keeps_bind _ extends_but_token_trans);
    [apply (keeps_get_world _ extends_but_token_refl)|intros w0].
  destruct (negb _); [apply (keeps_ret _ extends_but_token_refl)|].
  apply (keeps_bind _ extends_but_token_trans);
    [apply (keeps_config_getitem _ extends_but_token_refl extends_but_token_trans)|intros v].
  apply (keeps_bind _ extends_but_token_trans);
    [destruct v; first [apply (keeps_ret _ extends_but_token_refl)
                       | apply (keeps_raise _ extends_but_token_refl)]|intros tok].
  unfold time_time.
  apply (keeps_bind _ extends_but_token_trans);
    [repeat keeps_step extends_but_token_refl extends_but_token_trans|intros t].
  destruct (int_lt_float _ _); [|apply (keeps_ret _ extends_but_token_refl)].
  apply (keeps_bind _ extends_but_token_trans);
    [apply (keeps_config_getitem _ extends_but_token_refl extends_but_token_trans)|intros c].
  apply (keeps_bind _ extends_but_token_trans).
  { intros w. apply extends_but_token_of_extends, Htoken. }
  intros tok'.
  apply (keeps_bind _ extends_but_token_trans).
  { apply keeps_modify. intros w. constructor; try reflexivity.
    - intros k Hk. cbn [config set_config]. now apply lookup_insert_ne.
    - exists []. cbn [trace set_config]. now rewrite app_nil_r. }
  intros _. apply (keeps_bind _ extends_but_token_trans).
  { apply keeps_modify. intros w. constructor; try reflexivity.
    exists []. cbn [trace set_api_key]. now rewrite app_nil_r. }
  intros _. apply (keeps_ret _ extends_but_token_refl).
Qed.

(** X3.  Handling a request, hook and view together, replaces nothing in
    [current_app.config] but the token slot, on any route and on any
    outcome: the credential, the auth helper and the approach that
    [setup_clients] stored are still there for the next request, and
    [openai.api_type] is never changed.  With [openai.api_type] other than
    [azure_ad], handling a request is running its view. *)
Theorem full_dispatch_request_keeps_setup (ep : Endpoint) (request : Request) (w : World) :
  extends_but_token w (snd (full_dispatch_request ep request w)) /\
  (forall auth_helper approach,
     Configured w auth_helper approach ->
     Configured (snd (full_dispatch_request ep request w)) auth_helper approach) /\
  (openai_api_type w <> "azure_ad" ->
     full_dispatch_request ep request w = view ep request w).
Proof.
  assert (Hkeeps : keeps extends_but_token (full_dispatch_request ep request)).
  { unfold full_dispatch_request, before_request_funcs, preprocess_request.
    apply (keeps_bind _ extends_but_token_trans).
    - apply (keeps_bind _ extends_but_token_trans); [apply keeps_ensure_openai_token|].
      intros [r|]; apply (keeps_ret _ extends_but_token_refl).
    - intros [r|]; [apply (keeps_ret _ extends_but_token_refl)|].
      intros w0. apply extends_but_token_of_extends, keeps_view. }
  split; [apply Hkeeps|]. split.
  - intros auth_helper approach [Ha Hp]. destruct (Hkeeps w) as [_ _ Hc _ _].
    constructor; rewrite Hc; [exact Ha | discriminate | exact Hp | discriminate].
  - intros Hstatic.
    unfold full_dispatch_request, before_request_funcs, preprocess_request.
    unfold bind. now rewrite (ensure_openai_token_static w Hstatic).
Qed.

End Frame.

(** ** Item assignment on a dict *)

Lemma dict_lookup_set_eq {A} (k : string) (v : A) (d : list (string * A)) :
  Dict.lookup k (Dict.set k v d) = Some v.
Proof.
  induction d as [|[k' v'] d IH]; cbn [Dict.set Dict.lookup].
  - now rewrite String.eqb_refl.
  - destruct (String.eqb k k') eqn:E; cbn [Dict.lookup]; rewrite E; [reflexivity|exact IH].
Qed.

Lemma dict_lookup_set_ne {A} (k k0 : string) (v : A) (d : list (string * A)) :
  k0 <> k -> Dict.lookup k0 (Dict.set k v d) = Dict.lookup k0 d.
Proof.
  intros Hne. induction d as [|[k' v'] d IH]; cbn [Dict.set Dict.lookup].
  - now rewrite (string_eqb_false _ _ Hne).
  - destruct (String.eqb k k') eqn:E; cbn [Dict.lookup].
    + apply String.eqb_eq in E. subst k'. now rewrite (string_eqb_false _ _ Hne).
    + now rewrite IH.
Qed.

(** ** The chat endpoint: what the approach receives, what escapes *)

Section ChatEdges.
Context `{Collaborators}.

(** The calls [chat] makes for a request of the ChatRequest shape. *)
Lemma chat_trace request o messages context w auth_helper approach claims :
  ChatRequest request o messages context ->
  Configured w auth_helper approach ->
  get_auth_claims_if_enabled auth_helper (headers request) = Returns claims ->
  exists rest,
    trace (snd (chat request w)) =
      (trace w ++
       [EvGetAuthClaims auth_helper (headers request);
        EvRun approach messages (stream_arg o) (context_arg context claims)
          (session_state_arg o)] ++ rest)%list /\
    Forall (fun ev => is_run ev = false /\ is_get_auth_claims ev = false) rest.
Proof.
  intros Hreq [Ha Hp] Hcl.
  rewrite (chat_reaches_try request o context w auth_helper claims
             (cr_is_json _ _ _ _ Hreq) (cr_body _ _ _ _ Hreq) (cr_context _ _ _ _ Hreq)
             Ha Hcl).
  unfold try_except.
  rewrite (chat_try_calls_run o messages (context_arg context claims)
             (emit (EvGetAuthClaims auth_helper (headers request)) w) approach
             (cr_messages _ _ _ _ Hreq) Hp).
  destruct (run approach messages (stream_arg o) (context_arg context claims)
              (session_state_arg o)) as [[d|g]|e].
  - exists []. cbn [snd emit trace]. rewrite <- app_assoc. split; [reflexivity|constructor].
  - exists []. cbn [snd emit trace]. rewrite <- app_assoc. split; [reflexivity|constructor].
  - destruct (exn_is_Exception e).
    + exists [EvLogException "Exception in /chat" e].
      cbn [snd emit trace chat_except logging_exception bind modify ret].
      rewrite <- !app_assoc. split; [reflexivity|].
      constructor; [split; reflexivity | constructor].
    + exists []. cbn [snd emit trace]. rewrite <- app_assoc.
      split; [reflexivity|constructor].
Qed.

(** X4.  The [auth_claims] the approach receives are the auth helper's,
    whatever the client put under [auth_claims] in its [context]; every
    other member of the client's [context] is passed on as sent.  The helper
    and the approach are each called once, in that order. *)
Theorem chat_passes_helper_claims request o messages context w auth_helper approach claims :
  ChatRequest request o messages context ->
  Configured w auth_helper approach ->
  get_auth_claims_if_enabled auth_helper (headers request) = Returns claims ->
  exists passed rest,
    trace (snd (chat request w)) =
      (trace w ++
       [EvGetAuthClaims auth_helper (headers request);
        EvRun approach messages (stream_arg o) (JDict passed) (session_state_arg o)]
       ++ rest)%list /\
    Forall (fun ev => is_run ev = false /\ is_get_auth_claims ev = false) rest /\
    Dict.lookup "auth_claims" passed = Some claims /\
    (forall k, k <> "auth_claims" -> Dict.lookup k passed = Dict.lookup k context).
Proof.
  intros Hreq Hcfg Hcl.
  destruct (chat_trace request o messages context w auth_helper approach claims
              Hreq Hcfg Hcl) as (rest & Htrace & Hrest).
  exists (Dict.set "auth_claims" claims context), rest.
  split; [exact Htrace|]. split; [exact Hrest|]. split.
  - apply dict_lookup_set_eq.
  - intros k Hk. now apply dict_lookup_set_ne.
Qed.

(** X5.  A body with neither [stream] nor [session_state] reaches the
    approach with [stream=False] and [session_state=None]; a body whose
    [context] is absent or empty reaches it with a context holding
    [auth_claims] only. *)
Theorem chat_defaults_of_missing_members request o messages w auth_helper approach claims :
  ChatRequest request o messages [] ->
  Dict.lookup "stream" o = None ->
  Dict.lookup "session_state" o = None ->
  Configured w auth_helper approach ->
  get_auth_claims_if_enabled auth_helper (headers request) = Returns claims ->
  exists rest,
    trace (snd (chat request w)) =
      (trace w ++
       [EvGetAuthClaims auth_helper (headers request);
        EvRun approach messages (JBool false) (JDict [("auth_claims", claims)]) JNull]
       ++ rest)%list /\
    Forall (fun ev => is_run ev = false /\ is_get_auth_claims ev = false) rest.
Proof.
  intros Hreq Hs Hss Hcfg Hcl.
  destruct (chat_trace request o messages [] w auth_helper approach claims
              Hreq Hcfg Hcl) as (rest & Htrace & Hrest).
  exists rest. split; [|exact Hrest].
  rewrite Htrace. unfold stream_arg, session_state_arg. now rewrite Hs, Hss.
Qed.

(** X6.  A JSON body that is not an object (a list, a string, a number, a
    boolean, [null]) makes the handler raise [AttributeError] at
    [request_json.get], before the [try] statement: no response is built and
    neither the auth helper nor the approach is called. *)
Theorem chat_non_object_body_raises request v w :
  is_json request = true ->
  parsed_body request = Some v ->
  (forall d, v <> JDict d) ->
  chat request w =
    (Raises (AttributeError ("'" +:+ type_name v +:+ "' object has no attribute 'get'")), w).
Proof.
  intros Hj Hb Hv. unfold chat. rewrite Hj. cbn [negb].
  unfold get_json. rewrite Hb. unfold bind at 1. cbn [ret].
  destruct v as [|b|n|s|l|d]; try reflexivity.
  now destruct (Hv d).
Qed.

(** X7.  When the body's [context] is present and is not an object, the auth
    helper is called and the assignment of [auth_claims] then raises
    [TypeError] before the [try] statement: the exception leaves the
    handler, nothing is logged and the approach is not called. *)
Theorem chat_non_object_context_raises request o c w auth_helper claims :
  is_json request = true ->
  parsed_body request = Some (JDict o) ->
  Dict.lookup "context" o = Some c ->
  (forall d, c <> JDict d) ->
  config w !! CONFIG_AUTH_CLIENT = Some (CfgAuthClient auth_helper) ->
  get_auth_claims_if_enabled auth_helper (headers request) = Returns claims ->
  exists msg,
    chat request w =
      (Raises (TypeError msg), emit (EvGetAuthClaims auth_helper (headers request)) w).
Proof.
  intros Hj Hb Hc Hnd Ha Hcl. unfold chat. rewrite Hj. cbn [negb].
  unfold get_json. rewrite Hb.
  unfold bind at 1. cbn [ret py_get]. unfold bind at 1. cbn [ret]. rewrite Hc.
  cbn [from_option id].
  rewrite (bind_returns _ _ _ _ _ (config_getitem_some _ _ _ Ha)).
  unfold call_get_auth_claims_if_enabled, as_auth_client.
  unfold bind at 1. unfold bind at 1. unfold bind at 1. cbn [ret].
  unfold bind at 1. cbn [modify]. unfold lift. rewrite Hcl.
  destruct c as [|b|n|s|l|d]; try (eexists; reflexivity).
  now destruct (Hnd d).
Qed.

(** X8.  An exception of [approach.run] that is not an [Exception] (a
    cancellation, say) is not caught by [except Exception]: it leaves the
    handler and is not logged. *)
Theorem chat_lets_base_exception_through request o messages context w auth_helper
    approach claims e :
  ChatRequest request o messages context ->
  Configured w auth_helper approach ->
  get_auth_claims_if_enabled auth_helper (headers request) = Returns claims ->
  run approach messages (stream_arg o) (context_arg context claims) (session_state_arg o)
    = Raises e ->
  exn_is_Exception e = false ->
  chat request w =
    (Raises e,
     emit (EvRun approach messages (stream_arg o) (context_arg context claims)
             (session_state_arg o))
       (emit (EvGetAuthClaims auth_helper (headers request)) w)).
Proof.
  intros Hreq [Ha Hp] Hcl Hrun He.
  rewrite (chat_reaches_try request o context w auth_helper claims
             (cr_is_json _ _ _ _ Hreq) (cr_body _ _ _ _ Hreq) (cr_context _ _ _ _ Hreq)
             Ha Hcl).
  unfold try_except.
  rewrite (chat_try_calls_run o messages (context_arg context claims)
             (emit (EvGetAuthClaims auth_helper (headers request)) w) approach
             (cr_messages _ _ _ _ Hreq) Hp).
  now rewrite Hrun, He.
Qed.

End ChatEdges.

(** ** The token gate over successive requests *)

Section GateSequences.
Context `{Collaborators}.

(** The state a successful refresh leaves. *)
Lemma refreshed_world w cred tok' (w' : World) :
  w' = set_api_key (token tok')
         (set_config CONFIG_OPENAI_TOKEN (CfgToken tok')
            (emit (EvGetToken cred TOKEN_SCOPE) w)) ->
  openai_api_type w' = openai_api_type w /\
  now w' = now w /\
  config w' !! CONFIG_OPENAI_TOKEN = Some (CfgToken tok') /\
  config w' !! CONFIG_CREDENTIAL = config w !! CONFIG_CREDENTIAL /\
  count is_get_token w' = S (count is_get_token w).
Proof.
  intros ->. split; [reflexivity|]. split; [reflexivity|]. split; [|split].
  - cbn [config set_api_key set_config]. apply lookup_insert_eq.
  - cbn [config set_api_key set_config emit]. now apply lookup_insert_ne.
  - change (count is_get_token (emit (EvGetToken cred TOKEN_SCOPE) w)
            = S (count is_get_token w)).
    rewrite count_emit. cbn [is_get_token]. lia.
Qed.

(** X9.  Once a refresh has stored a token for which the test of the hook
    fails, the hook of the next request (at the same clock reading) does
    nothing:
    no second fetch, state unchanged. *)
Theorem ensure_openai_token_settles w tok cred tok' :
  openai_api_type w = "azure_ad" ->
  config w !! CONFIG_OPENAI_TOKEN = Some (CfgToken tok) ->
  config w !! CONFIG_CREDENTIAL = Some (CfgCredential cred) ->
  within_margin w tok = true ->
  get_token cred TOKEN_SCOPE = Returns tok' ->
  within_margin w tok' = false ->
  ensure_openai_token (snd (ensure_openai_token w)) =
    (Returns None, snd (ensure_openai_token w)) /\
  count is_get_token (snd (ensure_openai_token w)) = S (count is_get_token w).
Proof.
  intros Hty Htok Hcred Hstale Hget Hfresh.
  rewrite (ensure_openai_token_refreshed w tok cred Hty Htok Hcred Hstale), Hget.
  cbn [snd].
  destruct (refreshed_world w cred tok' _ eq_refl) as (Hty' & Hnow' & Htok' & _ & Hcount).
  split; [|exact Hcount].
  apply (ensure_openai_token_kept _ tok'); [congruence | exact Htok' |].
  unfold within_margin in *. now rewrite Hnow'.
Qed.

(** X10.  The expiry of a fetched token is not looked at when it is stored:
    if the credential hands out a token for which the test of the hook holds
    as well, the hook of the next request fetches again. *)
Theorem ensure_openai_token_refetches_short_lived w tok cred tok' :
  openai_api_type w = "azure_ad" ->
  config w !! CONFIG_OPENAI_TOKEN = Some (CfgToken tok) ->
  config w !! CONFIG_CREDENTIAL = Some (CfgCredential cred) ->
  within_margin w tok = true ->
  get_token cred TOKEN_SCOPE = Returns tok' ->
  within_margin w tok' = true ->
  config (snd (ensure_openai_token w)) !! CONFIG_OPENAI_TOKEN = Some (CfgToken tok') /\
  count is_get_token (snd (ensure_openai_token (snd (ensure_openai_token w))))
    = S (S (count is_get_token w)).
Proof.
  intros Hty Htok Hcred Hstale Hget Hstale'.
  rewrite (ensure_openai_token_refreshed w tok cred Hty Htok Hcred Hstale), Hget.
  cbn [snd].
  destruct (refreshed_world w cred tok' _ eq_refl)
    as (Hty' & Hnow' & Htok' & Hcred' & Hcount).
  split; [exact Htok'|].
  set (w1 := set_api_key (token tok')
               (set_config CONFIG_OPENAI_TOKEN (CfgToken tok')
                  (emit (EvGetToken cred TOKEN_SCOPE) w))) in *.
  assert (Hty1 : openai_api_type w1 = "azure_ad") by congruence.
  assert (Hcred1 : config w1 !! CONFIG_CREDENTIAL = Some (CfgCredential cred))
    by now rewrite Hcred'.
  assert (Hstale1 : within_margin w1 tok' = true)
    by (unfold within_margin in *; now rewrite Hnow').
  rewrite (ensure_openai_token_refreshed w1 tok' cred Hty1 Htok' Hcred1 Hstale1), Hget.
  cbn [snd].
  destruct (refreshed_world w1 cred tok' _ eq_refl) as (_ & _ & _ & _ & Hcount').
  now rewrite Hcount', Hcount.
Qed.

(** X11.  When the refresh fails, the exception of [get_token] ends the
    request on any route: the view is not run, and the stored token and
    [openai.api_key] are left as they were. *)
Theorem failed_refresh_ends_request (ep : Endpoint) (request : Request) w tok cred e :
  openai_api_type w = "azure_ad" ->
  config w !! CONFIG_OPENAI_TOKEN = Some (CfgToken tok) ->
  config w !! CONFIG_CREDENTIAL = Some (CfgCredential cred) ->
  within_margin w tok = true ->
  get_token cred TOKEN_SCOPE = Raises e ->
  full_dispatch_request ep request w = (Raises e, emit (EvGetToken cred TOKEN_SCOPE) w) /\
  config (snd (full_dispatch_request ep request w)) = config w /\
  openai_api_key (snd (full_dispatch_request ep request w)) = openai_api_key w.
Proof.
  intros Hty Htok Hcred Hstale Hget.
  assert (E : full_dispatch_request ep request w =
              (Raises e, emit (EvGetToken cred TOKEN_SCOPE) w)).
  { unfold full_dispatch_request, before_request_funcs, preprocess_request.
    unfold bind.
    now rewrite (ensure_openai_token_refreshed w tok cred Hty Htok Hcred Hstale), Hget. }
  rewrite E. split; [reflexivity|]. split; reflexivity.
Qed.

End GateSequences.

(** ** How often a request calls out *)

Section Adds.
Context (p : Event -> bool).

Lemma adds_ret {A} n (a : A) : adds_at_most p n (ret a).
Proof. intros w. cbn [ret snd]. lia. Qed.

Lemma adds_raise {A} n (e : Exn) : adds_at_most p n (raise (A := A) e).
Proof. intros w. cbn [raise snd]. lia. Qed.

Lemma adds_lift {A} n (o : Outcome A) : adds_at_most p n (lift o).
Proof. intros w. cbn [lift snd]. lia. Qed.

Lemma adds_get_world n : adds_at_most p n get_world.
Proof. intros w. cbn [get_world snd]. lia. Qed.

Lemma adds_set_config n k v : adds_at_most p n (modify (set_config k v)).
Proof. intros w. change (count p w <= count p w <= count p w + n)%nat. lia. Qed.

Lemma adds_set_api_key n k : adds_at_most p n (modify (set_api_key k)).
Proof. intros w. change (count p w <= count p w <= count p w + n)%nat. lia. Qed.

Lemma adds_emit ev : adds_at_most p 1 (modify (emit ev)).
Proof. intros w. cbn [modify snd]. rewrite count_emit. destruct (p ev); lia. Qed.

Lemma adds_emit_other n ev : p ev = false -> adds_at_most p n (modify (emit ev)).
Proof. intros E w. cbn [modify snd]. rewrite count_emit, E. lia. Qed.

Lemma adds_bind_l {A B} n (m : M A) (k : A -> M B) :
  adds_at_most p 0 m -> (forall a, adds_at_most p n (k a)) -> adds_at_most p n (bind m k).
Proof.
  intros Hm Hk w. unfold bind. specialize (Hm w).
  destruct (m w) as [[a|e] w1]; cbn [snd] in *; [|lia].
  specialize (Hk a w1). lia.
Qed.

Lemma adds_bind_r {A B} n (m : M A) (k : A -> M B) :
  adds_at_most p n m -> (forall a, adds_at_most p 0 (k a)) -> adds_at_most p n (bind m k).
Proof.
  intros Hm Hk w. unfold bind. specialize (Hm w).
  destruct (m w) as [[a|e] w1]; cbn [snd] in *; [|lia].
  specialize (Hk a w1). lia.
Qed.

Lemma adds_try_except {A} n (body : M A) (handler : Exn -> M A) :
  adds_at_most p n body -> (forall e, adds_at_most p 0 (handler e)) ->
  adds_at_most p n (try_except body handler).
Proof.
  intros Hb Hh w. unfold try_except. specialize (Hb w).
  destruct (body w) as [[a|e] w1]; cbn [snd] in *; [lia|].
  destruct (exn_is_Exception e); cbn [snd]; [|lia].
  specialize (Hh e w1). lia.
Qed.

End Adds.

Ltac adds_leaf :=
  first [ apply adds_ret | apply adds_raise | apply adds_lift | apply adds_get_world
        | apply adds_set_config | apply adds_set_api_key
        | apply adds_emit_other; reflexivity
        | apply adds_emit ].

Ltac adds_solve :=
  lazymatch goal with
  | |- adds_at_most _ _ (match ?x with _ => _ end) => destruct x; adds_solve
  | |- adds_at_most _ _ (let* _ := _ in _) =>
      first [ apply adds_bind_l; [adds_solve | intros ?; adds_solve]
            | apply adds_bind_r; [adds_solve | intros ?; adds_solve] ]
  | |- adds_at_most _ _ (try_except _ _) =>
      apply adds_try_except; [adds_solve | intros ?; adds_solve]
  | |- _ => adds_leaf
  end.

Section Calls.
Context `{Collaborators}.

Local Ltac unfold_app :=
  unfold full_dispatch_request, before_request_funcs, preprocess_request, view,
    ensure_openai_token, time_time, index, get_basepath, redirect, favicon, assets,
    auth_setup, send_static_file, send_from_directory,
    chat, chat_try, chat_except, logging_exception, get_json,
    py_get, py_getitem, py_setitem, config_getitem,
    call_get_auth_claims_if_enabled, call_get_auth_setup_for_client, call_get_token,
    call_run, as_auth_client, as_approach, as_credential, as_token.

(** X12.  Handling one request, on any route and with any outcome, calls
    [get_token] at most once, [approach.run] at most once and
    [get_auth_claims_if_enabled] at most once: nothing is retried.  The
    views never call [get_token], and only the chat view calls the
    approach. *)
Theorem request_calls_out_at_most_once (ep : Endpoint) (request : Request) :
  adds_at_most is_get_token 1 (full_dispatch_request ep request) /\
  adds_at_most is_run 1 (full_dispatch_request ep request) /\
  adds_at_most is_get_auth_claims 1 (full_dispatch_request ep request) /\
  adds_at_most is_get_token 0 (view ep request) /\
  (ep <> EpChat -> adds_at_most is_run 0 (full_dispatch_request ep request)).
Proof.
  split; [|split; [|split; [|split]]].
  - unfold_app. adds_solve.
  - unfold_app. adds_solve.
  - unfold_app. adds_solve.
  - unfold_app. adds_solve.
  - intros Hep. destruct ep; try congruence; unfold_app; adds_solve.
Qed.

End Calls.

(** ** Start-up, and the first request after it *)

Lemma setup_clients_world (environ : gmap string string) (w : World) :
  setup_clients environ w =
    (Returns tt,
     set_config CONFIG_CHAT_APPROACH
       (CfgApproach
          (mkChatReadRetrieveReadApproach
             (os_getenv_default environ "OPENAI_HOST" "azure")
             (os_getenv environ "AZURE_OPENAI_ENDPOINT")
             (os_getenv environ "AZURE_OPENAI_API_KEY")
             (os_getenv environ "AZURE_OPENAI_CHATGPT_DEPLOYMENT")
             (os_getenv environ "AZURE_OPENAI_CHATGPT_MODEL")
             (os_getenv environ "DATABASE_CONNECTION_STRING")))
       (set_config CONFIG_AUTH_CLIENT
          (CfgAuthClient
             (mkAuthenticationHelper
                (String.eqb
                   (str_lower
                      (os_getenv_default environ "AZURE_USE_AUTHENTICATION" EmptyString))
                   "false")
                (os_getenv environ "AZURE_SERVER_APP_ID")
                (os_getenv environ "AZURE_SERVER_APP_SECRET")
                (os_getenv environ "AZURE_CLIENT_APP_ID")
                (os_getenv environ "AZURE_TENANT_ID")
                (os_getenv environ "TOKEN_CACHE_PATH")))
          (set_config CONFIG_CREDENTIAL (CfgCredential (mkDefaultAzureCredential true)) w))).
Proof. reflexivity. Qed.

(** X13.  [setup_clients] always succeeds and stores exactly three objects:
    the credential (built with the shared token cache excluded), the auth
    helper and the chat approach.  Every other key of [current_app.config]
    (a token stored earlier, say) keeps its value; [openai.api_type] and
    [openai.api_key] are not set and no call leaves the process. *)
Theorem setup_clients_stores_three_objects (environ : gmap string string) (w : World) :
  let w' := snd (setup_clients environ w) in
  fst (setup_clients environ w) = Returns tt /\
  config w' !! CONFIG_CREDENTIAL = Some (CfgCredential (mkDefaultAzureCredential true)) /\
  (exists auth_helper approach, Configured w' auth_helper approach) /\
  (forall k, k <> CONFIG_CREDENTIAL -> k <> CONFIG_AUTH_CLIENT ->
             k <> CONFIG_CHAT_APPROACH -> config w' !! k = config w !! k) /\
  openai_api_type w' = openai_api_type w /\
  openai_api_key w' = openai_api_key w /\
  trace w' = trace w.
Proof.
  intros w'. subst w'. rewrite setup_clients_world. cbn [fst snd].
  split; [reflexivity|]. split; [|split; [|split]].
  - cbn [config set_config]. rewrite !lookup_insert_ne by (compute; congruence).
    apply lookup_insert_eq.
  - eexists _, _. constructor; cbn [config set_config].
    + rewrite lookup_insert_ne by (compute; congruence). apply lookup_insert_eq.
    + apply lookup_insert_eq.
  - intros k Hc Ha Hp. cbn [config set_config].
    now rewrite !lookup_insert_ne by congruence.
  - repeat split.
Qed.

(** X14.  The variables [OPENAI_API_KEY], [OPENAI_ORGANIZATION],
    [AZURE_OPENAI_EMB_DEPLOYMENT] and [AZURE_OPENAI_EMB_MODEL_NAME] are read
    by [setup_clients] and used for nothing: whatever their values, set or
    unset, the process after start-up is the same. *)
Theorem setup_clients_ignores_unused_variables
    (environ : gmap string string) (name : string) (value : option string) (w : World) :
  name ∈ ["OPENAI_API_KEY"; "OPENAI_ORGANIZATION"; "AZURE_OPENAI_EMB_DEPLOYMENT";
          "AZURE_OPENAI_EMB_MODEL_NAME"] ->
  setup_clients (match value with
                 | Some v => <[name := v]> environ
                 | None => delete name environ
                 end) w
  = setup_clients environ w.
Proof.
  intros Hin. rewrite !setup_clients_world.
  assert (Hsame : forall k : string,
            k ∉ ["OPENAI_API_KEY"; "OPENAI_ORGANIZATION"; "AZURE_OPENAI_EMB_DEPLOYMENT";
                 "AZURE_OPENAI_EMB_MODEL_NAME"] ->
            match value with
            | Some v => <[name := v]> environ
            | None => delete name environ
            end !! k = environ !! k).
  { intros k Hk. assert (name <> k) by (intros ->; contradiction).
    destruct value; [now apply lookup_insert_ne | now apply lookup_delete_ne]. }
  unfold os_getenv, os_getenv_default.
  rewrite !Hsame by (rewrite !elem_of_cons, elem_of_nil; intros Hk;
                     repeat destruct Hk as [Hk|Hk]; try discriminate; exact Hk).
  reflexivity.
Qed.

Section FirstRequest.
Context `{Collaborators}.

(** X15.  Start-up and a request together: in a process started with a
    static key ([openai.api_type] other than [azure_ad]), the first POST
    /chat of the ChatRequest shape after [setup_clients] goes through the
    hook untouched, reaches the helper and the approach that start-up stored,
    and is answered with the dict the approach returns, status 200. *)
Theorem first_chat_after_setup (environ : gmap string string) (api_type : string)
    (key : option string) (t : spec_float) request o messages context auth_helper approach
    claims d :
  let w := snd (setup_clients environ (initial_world environ api_type key t)) in
  api_type <> "azure_ad" ->
  ChatRequest request o messages context ->
  Configured w auth_helper approach ->
  get_auth_claims_if_enabled auth_helper (headers request) = Returns claims ->
  run approach messages (stream_arg o) (context_arg context claims) (session_state_arg o)
    = Returns (RDict d) ->
  fst (full_dispatch_request EpChat request w)
  = Returns (mkResponse (BodyJson (JDict d)) 200 TimeoutDefault).
Proof.
  intros w Hty Hreq [Ha Hp] Hcl Hrun.
  unfold full_dispatch_request, before_request_funcs, preprocess_request. unfold bind.
  rewrite (ensure_openai_token_static w) by exact Hty.
  change (fst (chat request w) = Returns (mkResponse (BodyJson (JDict d)) 200 TimeoutDefault)).
  rewrite (chat_reaches_try request o context w auth_helper claims
             (cr_is_json _ _ _ _ Hreq) (cr_body _ _ _ _ Hreq) (cr_context _ _ _ _ Hreq)
             Ha Hcl).
  unfold try_except.
  rewrite (chat_try_calls_run o messages (context_arg context claims)
             (emit (EvGetAuthClaims auth_helper (headers request)) w) approach
             (cr_messages _ _ _ _ Hreq) Hp).
  now rewrite Hrun.
Qed.

End FirstRequest.

(** ** The application factory *)

Lemma logging_basicConfig_returns (root_has_handlers : bool) (level : string) :
  logging_basicConfig root_has_handlers level = Returns tt <->
  root_has_handlers = true \/ level ∈ level_names.
Proof.
  unfold logging_basicConfig. destruct root_has_handlers; [intuition|].
  destruct (bool_decide (level ∈ level_names)) eqn:E.
  - apply bool_decide_eq_true in E. intuition.
  - apply bool_decide_eq_false in E. split; [discriminate|].
    intros [H|H]; [discriminate | contradiction].
Qed.

(** X16.  [create_app] enables CORS exactly when [ALLOWED_ORIGIN] is set to a
    non-empty string and [logging.basicConfig], called before, has not
    raised; it does so for that origin and for the methods GET and POST
    only.  [logging.basicConfig] returns exactly when the root logger has
    handlers already or the level passed is a level name; otherwise its
    [ValueError] leaves the factory and CORS is not set up. *)
Theorem create_app_cors (environ : gmap string string) (root_has_handlers : bool)
    (origin : string) (methods : list Method) :
  (In (Cors origin methods) (fst (create_app environ root_has_handlers)) <->
   environ !! "ALLOWED_ORIGIN" = Some origin /\ origin <> EmptyString
   /\ methods = [GET; POST]
   /\ snd (create_app environ root_has_handlers) = Returns tt) /\
  (snd (create_app environ root_has_handlers) = Returns tt <->
   root_has_handlers = true \/
   match environ !! "APP_LOG_LEVEL" with
   | Some v => v
   | None =>
       match environ !! "WEBSITE_HOSTNAME" with
       | Some (String _ _) => "WARNING"
       | _ => "INFO"
       end
   end ∈ level_names) /\
  (snd (create_app environ root_has_handlers) <> Returns tt ->
   exists msg, snd (create_app environ root_has_handlers) = Raises (ValueError msg)).
Proof.
  unfold create_app, os_getenv, os_getenv_default.
  set (level := default _ (environ !! "APP_LOG_LEVEL")).
  assert (Hlevel : level = match environ !! "APP_LOG_LEVEL" with
                           | Some v => v
                           | None =>
                               match environ !! "WEBSITE_HOSTNAME" with
                               | Some (String _ _) => "WARNING"
                               | _ => "INFO"
                               end
                           end).
  { subst level. destruct (environ !! "APP_LOG_LEVEL"); [reflexivity|].
    now destruct (environ !! "WEBSITE_HOSTNAME") as [[|c h]|]. }
  rewrite <- Hlevel. clear Hlevel.
  pose proof (logging_basicConfig_returns root_has_handlers level) as Hret.
  destruct (logging_basicConfig root_has_handlers level) as [[]|e] eqn:Hlog; cbn [fst snd].
  - split; [|split; [tauto | congruence]].
    destruct (truthy (environ !! "APPLICATIONINSIGHTS_CONNECTION_STRING"));
      destruct (environ !! "ALLOWED_ORIGIN") as [[|c v]|]; cbn [truthy from_option id];
      cbn [app In]; split;
      try (intros Hin; repeat destruct Hin as [Hin|Hin]; try discriminate Hin;
           try contradiction;
           injection Hin as <- <-; repeat split; discriminate);
      try (intros ([= <-] & Hne & -> & _); now repeat (first [left; reflexivity | right]));
      try (intros ([= <-] & Hne & _); now destruct Hne);
      try (intros ([=] & _)).
  - split; [|split].
    + split; [|intros (_ & _ & _ & [=])].
      destruct (truthy (environ !! "APPLICATIONINSIGHTS_CONNECTION_STRING"));
        cbn [app In]; intros Hin;
        repeat destruct Hin as [Hin|Hin]; try discriminate Hin; contradiction.
    + split; [discriminate|]. intros Hok. apply Hret in Hok. discriminate.
    + intros _. unfold logging_basicConfig in Hlog.
      destruct root_has_handlers; [discriminate|].
      destruct (bool_decide _); [discriminate|].
      injection Hlog as <-. eexists. reflexivity.
Qed.

(** X17.  [create_app] calls [logging.basicConfig] once.  The level is
    [APP_LOG_LEVEL] whenever that variable is set, as it is, the empty
    string included; otherwise [WARNING] when [WEBSITE_HOSTNAME] is set to a
    non-empty string and [INFO] when it is not. *)
Theorem create_app_log_level (environ : gmap string string) (root_has_handlers : bool)
    (level : string) :
  In (LoggingBasicConfig level) (fst (create_app environ root_has_handlers)) <->
  level = match environ !! "APP_LOG_LEVEL" with
          | Some v => v
          | None =>
              match environ !! "WEBSITE_HOSTNAME" with
              | Some (String _ _) => "WARNING"
              | _ => "INFO"
              end
          end.
Proof.
  unfold create_app, os_getenv, os_getenv_default.
  destruct (logging_basicConfig _ _) as [[]|e]; cbn [fst];
    destruct (truthy (environ !! "APPLICATIONINSIGHTS_CONNECTION_STRING"));
    try destruct (truthy (environ !! "ALLOWED_ORIGIN"));
    destruct (environ !! "APP_LOG_LEVEL") as [v|];
    destruct (environ !! "WEBSITE_HOSTNAME") as [[|c h]|];
    cbn [truthy from_option id app In]; split;
    try (intros Hin; repeat destruct Hin as [Hin|Hin]; try discriminate Hin;
         try contradiction; now injection Hin as <-);
    try (intros ->; now repeat (first [left; reflexivity | right])).
Qed.

(** X18.  Whatever the environment, [create_app] registers the blueprint
    and wraps the app in the OpenTelemetry middleware, in that order; the
    Azure Monitor exporter is configured, before the app is created, exactly
    when [APPLICATIONINSIGHTS_CONNECTION_STRING] is set to a non-empty
    string, so without it the middleware is installed all the same. *)
Theorem create_app_telemetry (environ : gmap string string) (root_has_handlers : bool) :
  (exists before after,
     fst (create_app environ root_has_handlers) =
       (before ++ [NewQuart; RegisterBlueprint "routes"; WrapOpenTelemetryMiddleware]
        ++ after)%list /\
     ~ In NewQuart before /\
     (In ConfigureAzureMonitor before <->
        exists c v, environ !! "APPLICATIONINSIGHTS_CONNECTION_STRING" = Some (String c v)) /\
     ~ In ConfigureAzureMonitor after).
Proof.
  unfold create_app, os_getenv.
  destruct (logging_basicConfig _ _) as [[]|e]; cbn [fst];
    destruct (environ !! "APPLICATIONINSIGHTS_CONNECTION_STRING") as [[|c v]|];
    cbn [truthy]; rewrite <- ?app_assoc; eexists _, _; (split; [reflexivity|]);
    cbn [In];
    (split; [first [tauto | intros [Hin|[Hin|[]]]; discriminate]|]);
    (split;
     [split; first [tauto | intros (c0 & v0 & [=]) | intros _; now eexists _, _]|]);
    repeat match goal with |- context [truthy ?x] => destruct (truthy x) end;
    cbn [app In]; intros Hin;
    repeat destruct Hin as [Hin|Hin]; try discriminate Hin; contradiction.
Qed.

(** ** The further properties at sample requests *)

Lemma full_dispatch_request_keeps_setup_witness :
  Configured (Stub.served_with "azure_ad" Stub.stale_token) Stub.auth_helper Stub.approach /\
  Configured
    (snd (@full_dispatch_request Stub.answering EpChat (Stub.chat_request false)
            (Stub.served_with "azure_ad" Stub.stale_token)))
    Stub.auth_helper Stub.approach.
Proof.
  assert (Hcfg : Configured (Stub.served_with "azure_ad" Stub.stale_token)
                   Stub.auth_helper Stub.approach)
    by (constructor; reflexivity).
  split; [exact Hcfg|].
  destruct (@full_dispatch_request_keeps_setup Stub.answering EpChat
              (Stub.chat_request false) (Stub.served_with "azure_ad" Stub.stale_token))
    as (_ & Hkeep & _).
  exact (Hkeep Stub.auth_helper Stub.approach Hcfg).
Defined.

Lemma chat_passes_helper_claims_witness :
  ChatRequest (Stub.post_json (JDict Stub.forging_body)) Stub.forging_body Stub.hi
    Stub.forged_context /\
  Dict.lookup "auth_claims" Stub.forged_context = Some (JDict [("oid", JStr "admin")]) /\
  exists passed rest,
    trace (snd (@chat Stub.answering (Stub.post_json (JDict Stub.forging_body))
                  (Stub.served "azure"))) =
      ([EvGetAuthClaims Stub.auth_helper [];
        EvRun Stub.approach Stub.hi (JBool false) (JDict passed) JNull] ++ rest)%list /\
    Dict.lookup "auth_claims" passed = Some (JDict []) /\
    Dict.lookup "overrides" passed = Some (JDict [("top", JInt 3)]).
Proof.
  assert (Hreq : ChatRequest (Stub.post_json (JDict Stub.forging_body)) Stub.forging_body
                   Stub.hi Stub.forged_context)
    by (constructor; reflexivity).
  assert (Hcfg : Configured (Stub.served "azure") Stub.auth_helper Stub.approach)
    by (constructor; reflexivity).
  split; [exact Hreq|]. split; [reflexivity|].
  destruct (@chat_passes_helper_claims Stub.answering
              (Stub.post_json (JDict Stub.forging_body)) Stub.forging_body Stub.hi
              Stub.forged_context (Stub.served "azure") Stub.auth_helper Stub.approach
              (JDict []) Hreq Hcfg eq_refl) as (passed & rest & Htrace & _ & Hclaims & Hother).
  exists passed, rest. split; [exact Htrace|]. split; [exact Hclaims|].
  rewrite (Hother "overrides") by discriminate. reflexivity.
Defined.

Lemma chat_defaults_of_missing_members_witness :
  ChatRequest (Stub.post_json (JDict [("messages", Stub.hi)])) [("messages", Stub.hi)]
    Stub.hi [] /\
  exists rest,
    trace (snd (@chat Stub.answering (Stub.post_json (JDict [("messages", Stub.hi)]))
                  (Stub.served "azure"))) =
      ([EvGetAuthClaims Stub.auth_helper [];
        EvRun Stub.approach Stub.hi (JBool false) (JDict [("auth_claims", JDict [])]) JNull]
       ++ rest)%list.
Proof.
  assert (Hreq : ChatRequest (Stub.post_json (JDict [("messages", Stub.hi)]))
                   [("messages", Stub.hi)] Stub.hi [])
    by (constructor; reflexivity).
  assert (Hcfg : Configured (Stub.served "azure") Stub.auth_helper Stub.approach)
    by (constructor; reflexivity).
  split; [exact Hreq|].
  destruct (@chat_defaults_of_missing_members Stub.answering
              (Stub.post_json (JDict [("messages", Stub.hi)])) [("messages", Stub.hi)]
              Stub.hi (Stub.served "azure") Stub.auth_helper Stub.approach (JDict [])
              Hreq eq_refl eq_refl Hcfg eq_refl) as (rest & Htrace & _).
  exists rest. exact Htrace.
Defined.

Lemma chat_non_object_body_raises_witness :
  is_json (Stub.post_json (JList [])) = true /\
  @chat Stub.answering (Stub.post_json (JList [])) (Stub.served "azure") =
    (Raises (AttributeError "'list' object has no attribute 'get'"), Stub.served "azure").
Proof.
  split; [reflexivity|].
  exact (@chat_non_object_body_raises Stub.answering (Stub.post_json (JList [])) (JList [])
           (Stub.served "azure") eq_refl eq_refl ltac:(discriminate)).
Defined.

Lemma chat_non_object_context_raises_witness :
  Dict.lookup "context" Stub.odd_context_body = Some (JStr "none") /\
  exists msg,
    @chat Stub.answering (Stub.post_json (JDict Stub.odd_context_body)) (Stub.served "azure")
    = (Raises (TypeError msg), emit (EvGetAuthClaims Stub.auth_helper []) (Stub.served "azure")).
Proof.
  split; [reflexivity|].
  exact (@chat_non_object_context_raises Stub.answering
           (Stub.post_json (JDict Stub.odd_context_body)) Stub.odd_context_body
           (JStr "none") (Stub.served "azure") Stub.auth_helper (JDict [])
           eq_refl eq_refl eq_refl ltac:(discriminate) eq_refl eq_refl).
Defined.

Lemma chat_lets_base_exception_through_witness :
  exn_is_Exception Stub.cancelled = false /\
  fst (@chat Stub.cancelling (Stub.chat_request true) (Stub.served "azure"))
    = Raises Stub.cancelled.
Proof.
  assert (Hreq : ChatRequest (Stub.chat_request true)
                   [("messages", Stub.hi); ("stream", JBool true)] Stub.hi [])
    by (constructor; reflexivity).
  assert (Hcfg : Configured (Stub.served "azure") Stub.auth_helper Stub.approach)
    by (constructor; reflexivity).
  split; [reflexivity|].
  rewrite (@chat_lets_base_exception_through Stub.cancelling (Stub.chat_request true)
             [("messages", Stub.hi); ("stream", JBool true)] Stub.hi []
             (Stub.served "azure") Stub.auth_helper Stub.approach (JDict [])
             Stub.cancelled Hreq Hcfg eq_refl eq_refl eq_refl).
  reflexivity.
Defined.

Lemma ensure_openai_token_settles_witness :
  within_margin (Stub.served_with "azure_ad" Stub.stale_token) Stub.stale_token = true /\
  within_margin (Stub.served_with "azure_ad" Stub.stale_token) Stub.fresh_token = false /\
  count is_get_token
    (snd (@ensure_openai_token Stub.answering
            (snd (@ensure_openai_token Stub.answering
                    (Stub.served_with "azure_ad" Stub.stale_token))))) = 1%nat.
Proof.
  assert (Hstale : within_margin (Stub.served_with "azure_ad" Stub.stale_token)
                     Stub.stale_token = true)
    by (vm_compute; reflexivity).
  assert (Hfresh : within_margin (Stub.served_with "azure_ad" Stub.stale_token)
                     Stub.fresh_token = false)
    by (vm_compute; reflexivity).
  split; [exact Hstale|]. split; [exact Hfresh|].
  destruct (@ensure_openai_token_settles Stub.answering
              (Stub.served_with "azure_ad" Stub.stale_token) Stub.stale_token
              Stub.credential Stub.fresh_token eq_refl eq_refl eq_refl Hstale eq_refl Hfresh)
    as [Hnoop Hcount].
  rewrite Hnoop. exact Hcount.
Defined.

Lemma ensure_openai_token_refetches_short_lived_witness :
  within_margin (Stub.served_with "azure_ad" Stub.stale_token) Stub.short_lived_token
    = true /\
  count is_get_token
    (snd (@ensure_openai_token Stub.short_lived
            (snd (@ensure_openai_token Stub.short_lived
                    (Stub.served_with "azure_ad" Stub.stale_token))))) = 2%nat.
Proof.
  assert (Hstale : within_margin (Stub.served_with "azure_ad" Stub.stale_token)
                     Stub.stale_token = true)
    by (vm_compute; reflexivity).
  assert (Hshort : within_margin (Stub.served_with "azure_ad" Stub.stale_token)
                     Stub.short_lived_token = true)
    by (vm_compute; reflexivity).
  split; [exact Hshort|].
  exact (proj2 (@ensure_openai_token_refetches_short_lived Stub.short_lived
                  (Stub.served_with "azure_ad" Stub.stale_token) Stub.stale_token
                  Stub.credential Stub.short_lived_token
                  eq_refl eq_refl eq_refl Hstale eq_refl Hshort)).
Defined.

Lemma failed_refresh_ends_request_witness :
  get_token (Collaborators := Stub.unreachable_provider) Stub.credential TOKEN_SCOPE
    = Raises Stub.provider_error /\
  fst (@full_dispatch_request Stub.unreachable_provider EpChat (Stub.chat_request false)
         (Stub.served_with "azure_ad" Stub.stale_token)) = Raises Stub.provider_error /\
  config (snd (@full_dispatch_request Stub.unreachable_provider EpChat
                 (Stub.chat_request false) (Stub.served_with "azure_ad" Stub.stale_token)))
    !! CONFIG_OPENAI_TOKEN = Some (CfgToken Stub.stale_token).
Proof.
  split; [reflexivity|].
  destruct (@failed_refresh_ends_request Stub.unreachable_provider EpChat
              (Stub.chat_request false) (Stub.served_with "azure_ad" Stub.stale_token)
              Stub.stale_token Stub.credential Stub.provider_error
              eq_refl eq_refl eq_refl ltac:(vm_compute; reflexivity) eq_refl)
    as (E & Hcfg & _).
  split; [rewrite E; reflexivity|].
  rewrite Hcfg. reflexivity.
Defined.

Lemma request_calls_out_at_most_once_witness :
  EpRedirect <> EpChat /\
  count is_run
    (snd (@full_dispatch_request Stub.answering EpRedirect Stub.post_text
            (Stub.served_with "azure_ad" Stub.stale_token))) = 0%nat.
Proof.
  split; [discriminate|].
  destruct (@request_calls_out_at_most_once Stub.answering EpRedirect Stub.post_text)
    as (_ & _ & _ & _ & Hrun).
  pose proof (Hrun ltac:(discriminate) (Stub.served_with "azure_ad" Stub.stale_token))
    as Hbound.
  change (count is_run (Stub.served_with "azure_ad" Stub.stale_token)) with 0%nat in Hbound.
  lia.
Defined.

Lemma setup_clients_stores_three_objects_witness :
  CONFIG_OPENAI_TOKEN <> CONFIG_CREDENTIAL /\
  config (snd (setup_clients ∅ (Stub.served_with "azure_ad" Stub.stale_token)))
    !! CONFIG_OPENAI_TOKEN = Some (CfgToken Stub.stale_token).
Proof.
  split; [discriminate|].
  destruct (setup_clients_stores_three_objects ∅
              (Stub.served_with "azure_ad" Stub.stale_token))
    as (_ & _ & _ & Hother & _).
  rewrite (Hother CONFIG_OPENAI_TOKEN) by discriminate. reflexivity.
Defined.

Lemma setup_clients_ignores_unused_variables_witness :
  ("OPENAI_API_KEY" : string)
    ∈ ["OPENAI_API_KEY"; "OPENAI_ORGANIZATION"; "AZURE_OPENAI_EMB_DEPLOYMENT";
       "AZURE_OPENAI_EMB_MODEL_NAME"] /\
  setup_clients (<["OPENAI_API_KEY" := "sk-test"]> ∅) (initial_world ∅ "open_ai" None (float_of_int 0))
  = setup_clients ∅ (initial_world ∅ "open_ai" None (float_of_int 0)).
Proof.
  assert (Hin : ("OPENAI_API_KEY" : string)
                  ∈ ["OPENAI_API_KEY"; "OPENAI_ORGANIZATION"; "AZURE_OPENAI_EMB_DEPLOYMENT";
                     "AZURE_OPENAI_EMB_MODEL_NAME"])
    by (apply list_elem_of_here).
  split; [exact Hin|].
  exact (setup_clients_ignores_unused_variables ∅ "OPENAI_API_KEY" (Some "sk-test")
           (initial_world ∅ "open_ai" None (float_of_int 0)) Hin).
Defined.

Lemma first_chat_after_setup_witness :
  ("azure" : string) <> "azure_ad" /\
  fst (@full_dispatch_request Stub.answering EpChat (Stub.chat_request false)
         (snd (setup_clients ∅ (initial_world ∅ "azure" None (float_of_int 1700000000)))))
  = Returns (mkResponse (BodyJson (JDict [("answer", JStr "hello")])) 200 TimeoutDefault).
Proof.
  assert (Hreq : ChatRequest (Stub.chat_request false)
                   [("messages", Stub.hi); ("stream", JBool false)] Stub.hi [])
    by (constructor; reflexivity).
  assert (Hcfg : Configured (snd (setup_clients ∅ (initial_world ∅ "azure" None (float_of_int 1700000000))))
                   Stub.auth_helper Stub.approach)
    by (constructor; reflexivity).
  split; [discriminate|].
  exact (@first_chat_after_setup Stub.answering ∅ "azure" None (float_of_int 1700000000)
           (Stub.chat_request false) [("messages", Stub.hi); ("stream", JBool false)]
           Stub.hi [] Stub.auth_helper Stub.approach (JDict []) Stub.answer
           ltac:(discriminate) Hreq Hcfg eq_refl eq_refl).
Defined.

Lemma create_app_cors_witness :
  snd (create_app (<["APP_LOG_LEVEL" := "debug"]> {["ALLOWED_ORIGIN" := "https://example.org"]})
         false) <> Returns tt /\
  (exists msg,
     snd (create_app
            (<["APP_LOG_LEVEL" := "debug"]> {["ALLOWED_ORIGIN" := "https://example.org"]})
            false) = Raises (ValueError msg)) /\
  ~ In (Cors "https://example.org" [GET; POST])
      (fst (create_app
              (<["APP_LOG_LEVEL" := "debug"]> {["ALLOWED_ORIGIN" := "https://example.org"]})
              false)).
Proof.
  assert (Hraised : snd (create_app
                           (<["APP_LOG_LEVEL" := "debug"]>
                              {["ALLOWED_ORIGIN" := "https://example.org"]}) false)
                    <> Returns tt)
    by (vm_compute; discriminate).
  destruct (create_app_cors
              (<["APP_LOG_LEVEL" := "debug"]> {["ALLOWED_ORIGIN" := "https://example.org"]})
              false "https://example.org" [GET; POST]) as (Hcors & _ & Hraise).
  split; [exact Hraised|]. split; [exact (Hraise Hraised)|].
  intros Hin. apply Hcors in Hin. destruct Hin as (_ & _ & _ & Hok).
  exact (Hraised Hok).
Defined.
